(** * msc-pygeoapi, process/cccs: climate statistics

    A shallow embedding of the missing-data evaluation, the statistics
    aggregation and the station deduplication of

      - [src/msc_pygeoapi/process/cccs/climate_stats.py]  (module [ClimateStats])
      - [src/msc_pygeoapi/process/cccs/test.py]           (module [TestScript])

    Modelling conventions.
      - Python [int] is [Z].  A finite Python [float] is the rational [Q] it
        denotes, so numeric [==], [<], [>] are [Qeq], [Qlt]; float
        arithmetic rounds every result to the nearest binary64 number, ties
        to even ([nearest64]), and a sum that leaves the binary64 range is an
        infinity ([float64]).  The float that [round(x, 2)] returns is
        written as the decimal with two places it is nearest to.
      - [None] mixed into a numeric list is [option Q].
      - A Python [str] built by an f-string is the list of its parts
        ([pystr]): literal text and interpolated values, in order.
      - Exceptions and [print] are threaded through the monad [M]: a
        computation yields what it printed and either a value or the
        exception it raised.  [try: ... except Exception as e: print(..);
        raise] is [try_print_raise]. *)

From Stdlib Require Import String ZArith QArith Qround Qabs Bool List Lia Lqa.
From Stdlib Require SpecFloat.
Import ListNotations.

Local Open Scope Z_scope.

(** ** The fragment of the Python runtime the code relies on *)

Module Py.

(** Exceptions the modelled code can raise; the payload of the two name
    errors is the name that could not be read. *)
Inductive exn : Type :=
| NameError (name : string)
| UnboundLocalError (name : string)
| TypeError
| ZeroDivisionError.

Inductive result (A : Type) : Type :=
| Return (a : A)
| Raise (e : exn).
Arguments Return {A} a.
Arguments Raise {A} e.

(** Dynamically typed values that reach the policy argument. *)
Inductive pyval : Type :=
| PyNone
| PyInt (n : Z)
| PyFloat (q : Q)
| PyStr (s : string).

(** One part of an f-string. *)
Inductive fpart : Type :=
| Lit (s : string)
| Val (v : pyval)
| Exn (e : exn).

Definition pystr : Type := list fpart.

(** A plain string literal. *)
Definition lit (s : string) : pystr := [Lit s].

(** Printed lines (oldest first) and the outcome. *)
Definition M (A : Type) : Type := (list pystr * result A)%type.

Definition outcome {A} (m : M A) : result A := snd m.

Definition ret {A} (a : A) : M A := ([], Return a).
Definition raise {A} (e : exn) : M A := ([], Raise e).

Definition bind {A B} (m : M A) (k : A -> M B) : M B :=
  match m with
  | (out, Return a) => let (out', r) := k a in (out ++ out', r)
  | (out, Raise e) => (out, Raise e)
  end.

(** [try: body  except Exception as e: print(msg e); raise] *)
Definition try_print_raise {A} (body : M A) (msg : exn -> pystr) : M A :=
  match body with
  | (out, Return a) => (out, Return a)
  | (out, Raise e) => (out ++ [msg e], Raise e)
  end.

(** The numeric value of an [int] or [float]. *)
Definition as_number (v : pyval) : option Q :=
  match v with
  | PyInt n => Some (inject_Z n)
  | PyFloat q => Some q
  | _ => None
  end.

(** [a == b]: numbers compare by value, strings by content, [None] only
    equals [None]; values of unrelated types are unequal. *)
Definition py_eq (a b : pyval) : bool :=
  match a, b with
  | PyNone, PyNone => true
  | PyStr s, PyStr t => String.eqb s t
  | PyInt m, PyInt n => Z.eqb m n
  | PyInt m, PyFloat q => Qeq_bool (inject_Z m) q
  | PyFloat p, PyInt n => Qeq_bool p (inject_Z n)
  | PyFloat p, PyFloat q => Qeq_bool p q
  | _, _ => false
  end.

Definition Qltb (a b : Q) : bool :=
  match Qcompare a b with Lt => true | _ => false end.

(** [x > v] for a float [x]: a [TypeError] when [v] is not a number. *)
Definition float_gt (x : Q) (v : pyval) : M bool :=
  match as_number v with
  | Some q => ret (Qltb q x)
  | None => raise TypeError
  end.

(** Reading a local variable that may not have been assigned. *)
Definition read_local {A} (name : string) (slot : option A) : M A :=
  match slot with
  | Some a => ret a
  | None => raise (UnboundLocalError name)
  end.

(** The argument of [for value in data]: the callers pass a list of
    readings or, in the pipeline, an [int]. *)
Inductive pydata : Type :=
| DInt (n : Z)
| DList (l : list (option Q)).

(** [iter(data)]: an [int] is not iterable. *)
Definition iterate (data : pydata) : M (list (option Q)) :=
  match data with
  | DList l => ret l
  | DInt _ => raise TypeError
  end.

(** [round(x)] to the nearest integer, ties to even. *)
Definition round_half_even (q : Q) : Z :=
  let f := Qfloor q in
  match Qcompare (q - inject_Z f) (1 # 2) with
  | Lt => f
  | Gt => f + 1
  | Eq => if Z.even f then f else f + 1
  end.

(** [round(x, 2)] *)
Definition round2 (q : Q) : Q := Qmake (round_half_even (q * 100)) 100.

(** [2 ** e] for an integer [e] of either sign. *)
Definition pow2 (e : Z) : Q :=
  if 0 <=? e then inject_Z (2 ^ e) else (/ inject_Z (2 ^ (- e)))%Q.

(** The binade of a rational other than 0: the [E] with
    [2 ** E <= abs(q) < 2 ** (E + 1)]. *)
Definition binade (q : Q) : Z :=
  let E0 := Z.log2 (Z.abs (Qnum q)) - Z.log2 (Z.pos (Qden q)) in
  if Qle_bool (pow2 E0) (Qabs q) then E0 else E0 - 1.

(** The exponent of the last binary place a binary64 number of the size of
    [q] has: 53 significant bits, and no place below [2 ** -1074]. *)
Definition last_place (q : Q) : Z := Z.max (binade q - 52) (-1074).

(** The binary64 number nearest to [q], ties to the even significand, as
    float arithmetic rounds an exact result that lies in the binary64 range
    (below [2 ** 1024] in absolute value). *)
Definition nearest64 (q : Q) : Q :=
  let q := Qred q in
  if Qeq_bool q 0 then 0%Q
  else
    let e := last_place q in
    Qred (inject_Z (round_half_even (q / pow2 e)) * pow2 e).

(** A Python [float]. *)
Inductive float64 : Type :=
| Finite (q : Q)
| Infinite (negative : bool)
| NaN.

(** The float that an operation with the exact result [q] yields: the
    nearest binary64 number, an infinity once that reaches [2 ** 1024]. *)
Definition to_float64 (q : Q) : float64 :=
  let r := nearest64 q in
  if Qle_bool (pow2 1024) (Qabs r) then Infinite (Qltb r 0) else Finite r.

(** [a + b] on two [float]s. *)
Definition float_add (a b : float64) : float64 :=
  match a, b with
  | Finite x, Finite y => to_float64 (x + y)
  | Finite _, Infinite s => Infinite s
  | Infinite s, Finite _ => Infinite s
  | Infinite s, Infinite t => if Bool.eqb s t then Infinite s else NaN
  | _, _ => NaN
  end.

(** [a / n] for a [float] [a] and an [int] [n] other than 0, which is
    converted to [float] first.  (The only divisor is the length of a list
    that is not empty; at 0, where Python raises, the value is a
    placeholder.) *)
Definition float_div (a : float64) (n : Z) : float64 :=
  match a with
  | Finite x =>
      if Z.eqb n 0 then NaN else to_float64 (x / nearest64 (inject_Z n))
  | Infinite s => if Z.eqb n 0 then NaN else Infinite (xorb s (n <? 0))
  | NaN => NaN
  end.

(** [round(x, 2)] on a [float]: an infinity or a NaN is returned as it
    is. *)
Definition float_round2 (x : float64) : float64 :=
  match x with
  | Finite q => Finite (round2 q)
  | _ => x
  end.

(** [a / b] on two [int]s (true division): the float nearest to the exact
    quotient.  (Python raises [OverflowError] for a quotient of [2 ** 1024]
    or more; the code divides a count of records by a count, and the model
    leaves the quotient finite.) *)
Definition int_truediv (a b : Z) : M Q :=
  if Z.eqb b 0 then raise ZeroDivisionError
  else ret (nearest64 (inject_Z a / inject_Z b)).

(** [x * n] for a finite [float] [x] and an [int] [n], the product staying
    in the binary64 range. *)
Definition float_mul_int (x : Q) (n : Z) : Q :=
  nearest64 (x * nearest64 (inject_Z n)).

End Py.

Import Py.

Declare Scope py_scope.
Delimit Scope py_scope with py.
Notation "x <- m ;; k" := (bind m (fun x => k))
  (at level 61, m at next level, right associativity) : py_scope.
Local Open Scope py_scope.

(** Status strings shared by both files. *)
Definition status_None : pystr := lit "None".
Definition status_OK : pystr := lit "OK".
Definition status_WMO : pystr := lit "WMO criteria met: Missing or invalid month".

(** The f-string of the three percentage branches, given the values its two
    fields evaluate to. *)
Definition filtered_message (percentage_missing_data : Q)
    (input_missing_data_option : pyval) : pystr :=
  [ Lit "The input missing data option filtered this result: percentage missing data > input missing data option: ";
    Val (PyFloat percentage_missing_data);
    Lit " > ";
    Val input_missing_data_option ].

(** The line printed by the handler of [check_missing_data_options]. *)
Definition not_acceptable_message (input_missing_data_option : pyval)
    (e : exn) : pystr :=
  [ Lit "An error occurred, ";
    Val input_missing_data_option;
    Lit " doesn't provide an acceptable option: ";
    Exn e ].

(** ** climate_stats.py *)

Module ClimateStats.

(** The name [percentage_missing_data] inside the f-strings of
    [check_missing_data_options]: the parameter is called
    [missing_data_percentage], and the module binds no global of that
    name, so the lookup fails. *)
Definition percentage_missing_data : M Q :=
  raise (NameError "percentage_missing_data").

(** One of the three branches [elif input_missing_data_option == P]. *)
Definition percentage_branch (input_missing_data_option : pyval)
    (missing_data_percentage : Q) : M (option pystr) :=
  above <- float_gt missing_data_percentage input_missing_data_option ;;
  if (above : bool) then
    p <- percentage_missing_data ;;
    ret (Some (filtered_message p input_missing_data_option))
  else ret (Some status_OK).

Definition check_missing_data_options (input_missing_data_option : pyval)
    (missing_data_percentage : Q)
    (missing_days consecutive_missing_days : Z) : M pystr :=
  try_print_raise
    (missing_data_option_status <-
       (if py_eq input_missing_data_option PyNone then
          ret (Some status_None)
        else if py_eq input_missing_data_option (PyInt 5) then
          percentage_branch input_missing_data_option missing_data_percentage
        else if py_eq input_missing_data_option (PyInt 10) then
          percentage_branch input_missing_data_option missing_data_percentage
        else if py_eq input_missing_data_option (PyInt 15) then
          percentage_branch input_missing_data_option missing_data_percentage
        else if py_eq input_missing_data_option (PyStr "WMO") then
          if (missing_days =? 0) || (consecutive_missing_days =? 0) then
            ret (Some status_OK)
          else
            let missing_days_threshold := 11 in
            let consecutive_missing_days_threshold := 5 in
            if (missing_days >=? missing_days_threshold)
               || (consecutive_missing_days >=? consecutive_missing_days_threshold)
            then ret (Some status_WMO)
            else ret (Some status_OK)
        else ret None) ;;
     read_local "missing_data_option_status" missing_data_option_status)
    (not_acceptable_message input_missing_data_option).


(** One fetched document ([hit["_source"]]), reduced to the fields the
    pipeline reads: [properties[property]], [properties["STATION_NAME"]],
    [properties["STN_ID"]] and [geometry["coordinates"]]. *)
Record hit : Type := {
  field_value : option Q;
  STATION_NAME : string;
  STN_ID : Z;
  coordinates : list Q
}.

Definition calculate_missing_data (es_hits : list hit) : M Z :=
  try_print_raise
    (ret (fold_left
            (fun missing_data_count h =>
               match field_value h with
               | None => missing_data_count + 1
               | Some _ => missing_data_count
               end)
            es_hits 0))
    (fun e => [Lit "An error occurred in calculate_missing_data: "; Exn e]).

(** Body of the loop of [calculate_missing_days]. *)
Definition missing_step (missing_days : Z) (value : option Q) : Z :=
  match value with
  | None => missing_days + 1
  | Some _ => missing_days
  end.

Definition calculate_missing_days (data : pydata) : M Z :=
  try_print_raise
    (l <- iterate data ;;
     ret (fold_left missing_step l 0))
    (fun e => [Lit "An error occurred in calculate_missing_days: "; Exn e]).

(** Body of the loop of [calculate_consecutive_missing_days]; the state is
    [(consecutive_missing_days, max_consecutive_missing_days)]. *)
Definition consecutive_step (st : Z * Z) (value : option Q) : Z * Z :=
  let (consecutive_missing_days, max_consecutive_missing_days) := st in
  match value with
  | None =>
      let consecutive_missing_days := consecutive_missing_days + 1 in
      (consecutive_missing_days,
       Z.max max_consecutive_missing_days consecutive_missing_days)
  | Some _ => (0, max_consecutive_missing_days)
  end.

Definition calculate_consecutive_missing_days (data : pydata) : M Z :=
  try_print_raise
    (l <- iterate data ;;
     ret (snd (fold_left consecutive_step l (0, 0))))
    (fun e =>
       [Lit "An error occurred in calculate_consecutive_missing_days: "; Exn e]).

(** The dictionary returned by [calculate_statistics]. *)
Record statistics : Type := {
  st_total : Z;
  st_mean : option float64;
  st_max : option Q;
  st_min : option Q;
  st_threshold : Q;
  st_count_above : option Z;
  st_count_below : option Z;
  st_count_equal : option Z
}.

(** [name in calculations], with [calculations] the list of names of the
    docstring. *)
Definition requested (name : string) (calculations : list string) : bool :=
  existsb (String.eqb name) calculations.

(** [[value for value in values_results_list if value is not None]] *)
Fixpoint not_none (values_results_list : list (option Q)) : list Q :=
  match values_results_list with
  | [] => []
  | Some v :: rest => v :: not_none rest
  | None :: rest => not_none rest
  end.

(** [sum(xs)] on floats: the items are added to the running total in list
    order, from 0. *)
Definition py_sum (xs : list Q) : float64 :=
  fold_left (fun total item => float_add total (Finite item)) xs (Finite 0).

(** [max(x :: xs)]: the running maximum is replaced by a strictly greater
    item. *)
Definition py_max (x : Q) (xs : list Q) : Q :=
  fold_left (fun maxval item => if Qltb maxval item then item else maxval) xs x.

(** [min(x :: xs)]: replaced by a strictly smaller item. *)
Definition py_min (x : Q) (xs : list Q) : Q :=
  fold_left (fun minval item => if Qltb item minval then item else minval) xs x.

(** [sum(1 for value in xs if p value)] *)
Definition count_if (p : Q -> bool) (xs : list Q) : Z :=
  fold_left (fun n value => if p value then n + 1 else n) xs 0.

Definition py_len {A} (xs : list A) : Z := Z.of_nat (List.length xs).

Definition calculate_statistics (calculations : list string)
    (values_results_list : list (option Q))
    (manual_value_threshold : Q) : statistics :=
  let values_results_list := not_none values_results_list in
  match values_results_list with
  | v :: vs =>
      {| st_total := py_len values_results_list;
         st_mean :=
           if requested "mean" calculations then
             Some (float_round2 (float_div (py_sum values_results_list)
                                           (py_len values_results_list)))
           else None;
         st_max :=
           if requested "max" calculations then Some (py_max v vs) else None;
         st_min :=
           if requested "min" calculations then Some (py_min v vs) else None;
         st_threshold := manual_value_threshold;
         st_count_above :=
           if requested "count above threshold" calculations then
             Some (count_if (fun value => Qltb manual_value_threshold value)
                            values_results_list)
           else None;
         st_count_below :=
           if requested "count below threshold" calculations then
             Some (count_if (fun value => Qltb value manual_value_threshold)
                            values_results_list)
           else None;
         st_count_equal :=
           if requested "count equal threshold" calculations then
             Some (count_if (fun value => Qeq_bool value manual_value_threshold)
                            values_results_list)
           else None |}
  | [] =>
      {| st_total := py_len values_results_list;
         st_mean := None; st_max := None; st_min := None;
         st_threshold := manual_value_threshold;
         st_count_above := None; st_count_below := None;
         st_count_equal := None |}
  end.

(** The tuple [(STATION_NAME, STN_ID, coordinates)]. *)
Definition station_info : Type := (string * Z * list Q)%type.

Definition station_of (h : hit) : station_info :=
  (STATION_NAME h, STN_ID h, coordinates h).

(** [==] on two coordinate lists. *)
Fixpoint coords_eqb (a b : list Q) : bool :=
  match a, b with
  | [], [] => true
  | x :: a', y :: b' => Qeq_bool x y && coords_eqb a' b'
  | _, _ => false
  end.

(** [==] on two station tuples: field by field. *)
Definition station_eqb (a b : station_info) : bool :=
  match a, b with
  | (name_a, id_a, xy_a), (name_b, id_b, xy_b) =>
      String.eqb name_a name_b && Z.eqb id_a id_b && coords_eqb xy_a xy_b
  end.

(** The deduplication loop, over any element type and its [==]:
    [if station_info not in unique_stations: unique_stations.append(station_info)] *)
Definition dedup_step {A} (eqb : A -> A -> bool)
    (unique_stations : list A) (station_info : A) : list A :=
  if existsb (fun seen => eqb seen station_info) unique_stations
  then unique_stations
  else unique_stations ++ [station_info].

Definition dedup {A} (eqb : A -> A -> bool) (tuples : list A) : list A :=
  fold_left (dedup_step eqb) tuples [].

(** [unique_stations] after the loop over [es_hits]. *)
Definition unique_stations_of (es_hits : list hit) : list station_info :=
  dedup station_eqb (map station_of es_hits).

Record output_info : Type := {
  INDEX : string;
  PROPERTY : string;
  MISSING_DATA_OPTION : pyval;
  MISSING_DATA_TOTAL : Z;
  MISSIND_DATA_PERCENTAGE : Q;
  MISSING_DATA_STATUS : pystr;
  UNIQUE_STATIONS_COUNT : Z
}.

Record feature : Type := {
  ft_name : string;
  ft_station_id : Z;
  ft_coordinates : list Q
}.

Record geojson : Type := {
  gj_info : output_info;
  gj_global_stats : statistics;
  gj_features : list feature
}.

Definition create_geojson_with_stats (station_data : list station_info)
    (global_stats : statistics) (info : output_info) : M geojson :=
  try_print_raise
    (ret {| gj_info := info;
            gj_global_stats := global_stats;
            gj_features :=
              map (fun station_info : station_info =>
                     match station_info with
                     | (name, id, xy) =>
                         {| ft_name := name; ft_station_id := id;
                            ft_coordinates := xy |}
                     end)
                  station_data |})
    (fun e => [Lit "An error occurred in create_geojson_with_stats: "; Exn e]).

(** [round(((missing_data / es_count) * 100), 2)] *)
Definition percentage_of (missing_data es_count : Z) : M Q :=
  ratio <- int_truediv missing_data es_count ;;
  ret (round2 (float_mul_int ratio 100)).

(** The body of [climate_stats] from the point where the search has
    answered: [es_hits] is [es_result['hits']['hits']] and [es_count] is
    [es_result['hits']['total']['value']].  [unique_stations] starts as
    [None] and [statistics_result] unassigned; both are set only when
    [valuesResultsList] is not empty, and [len(None)] is a [TypeError].  The
    final conversion of the dictionary to text is left out; the dictionary is
    returned. *)
Definition climate_stats (index : string) (calculations : list string)
    (property : string) (es_hits : list hit) (es_count : Z)
    (threshold : Q) (missing_data_option : pyval) : M geojson :=
  let valuesResultsList := map field_value es_hits in
  missing_data <- calculate_missing_data es_hits ;;
  missing_data_percentage <- percentage_of missing_data es_count ;;
  missing_days <- calculate_missing_days (DList valuesResultsList) ;;
  consecutive_missing_days <-
    calculate_consecutive_missing_days (DInt missing_days) ;;
  missingParameters <-
    check_missing_data_options missing_data_option missing_data_percentage
      missing_days consecutive_missing_days ;;
  block <-
    try_print_raise
      (ret (match valuesResultsList with
            | _ :: _ =>
                (Some (unique_stations_of es_hits),
                 Some (calculate_statistics calculations valuesResultsList
                                            threshold))
            | [] => (None, None)
            end))
      (fun e => [Lit "An error occurred: "; Exn e]) ;;
  let (unique_stations, statistics_result) :=
    block : option (list station_info) * option statistics in
  match unique_stations with
  | None => raise TypeError
  | Some unique_stations =>
      let info :=
        {| INDEX := index; PROPERTY := property;
           MISSING_DATA_OPTION := missing_data_option;
           MISSING_DATA_TOTAL := missing_data;
           MISSIND_DATA_PERCENTAGE := missing_data_percentage;
           MISSING_DATA_STATUS := missingParameters;
           UNIQUE_STATIONS_COUNT := py_len unique_stations |} in
      statistics_result <- read_local "statistics_result" statistics_result ;;
      create_geojson_with_stats unique_stations statistics_result info
  end.

End ClimateStats.

(** ** test.py *)

Module TestScript.

(** Here the second parameter itself is named [percentage_missing_data],
    so the f-strings read the argument. *)
Definition percentage_branch (input_missing_data_option : pyval)
    (percentage_missing_data : Q) : M (option pystr) :=
  above <- float_gt percentage_missing_data input_missing_data_option ;;
  if (above : bool) then
    ret (Some (filtered_message percentage_missing_data input_missing_data_option))
  else ret (Some status_OK).

Definition check_missing_data_options (input_missing_data_option : pyval)
    (percentage_missing_data : Q)
    (missing_days consecutive_missing_days : Z) : M pystr :=
  try_print_raise
    (missing_data_option_status <-
       (if py_eq input_missing_data_option PyNone then
          ret (Some status_None)
        else if py_eq input_missing_data_option (PyInt 5) then
          percentage_branch input_missing_data_option percentage_missing_data
        else if py_eq input_missing_data_option (PyInt 10) then
          percentage_branch input_missing_data_option percentage_missing_data
        else if py_eq input_missing_data_option (PyInt 15) then
          percentage_branch input_missing_data_option percentage_missing_data
        else if py_eq input_missing_data_option (PyStr "WMO") then
          if (missing_days =? 0) || (consecutive_missing_days =? 0) then
            ret (Some status_OK)
          else
            let missing_days_threshold := 11 in
            let consecutive_missing_days_threshold := 5 in
            if (missing_days >=? missing_days_threshold)
               || (consecutive_missing_days >=? consecutive_missing_days_threshold)
            then ret (Some status_WMO)
            else ret (Some status_OK)
        else ret None) ;;
     read_local "missing_data_option_status" missing_data_option_status)
    (not_acceptable_message input_missing_data_option).


(** The other functions of test.py have the same text as those of
    climate_stats.py. *)
Definition calculate_missing_data := ClimateStats.calculate_missing_data.
Definition calculate_missing_days := ClimateStats.calculate_missing_days.
Definition calculate_consecutive_missing_days :=
  ClimateStats.calculate_consecutive_missing_days.
Definition calculate_statistics := ClimateStats.calculate_statistics.
Definition create_geojson_with_stats := ClimateStats.create_geojson_with_stats.

(** The inputs the script fixes. *)
Definition calculations : list string := ["max"%string].
Definition property : string := "TOTAL_PRECIPITATION".
Definition manualValueThreshold : Q := 0.
Definition input_missing_data_option : pyval := PyInt 5.
Definition indexSearch : string := "climate_public_daily_data".

(** The module-level statements after the search, up to the dictionary
    whose text the script prints. *)
Definition script (es_hits : list ClimateStats.hit) (es_count : Z)
    : M ClimateStats.geojson :=
  let valuesResultsList := map ClimateStats.field_value es_hits in
  missing_data <- calculate_missing_data es_hits ;;
  missing_data_percentage <- ClimateStats.percentage_of missing_data es_count ;;
  missing_days <- calculate_missing_days (DList valuesResultsList) ;;
  consecutive_missing_days <-
    calculate_consecutive_missing_days (DInt missing_days) ;;
  missingParameters <-
    check_missing_data_options input_missing_data_option
      missing_data_percentage missing_days consecutive_missing_days ;;
  block <-
    try_print_raise
      (ret (match valuesResultsList with
            | _ :: _ =>
                (Some (ClimateStats.unique_stations_of es_hits),
                 Some (calculate_statistics calculations valuesResultsList
                                            manualValueThreshold))
            | [] => (None, None)
            end))
      (fun e => [Lit "An error occurred: "; Exn e]) ;;
  let (unique_stations, statistics_result) :=
    block : option (list ClimateStats.station_info)
            * option ClimateStats.statistics in
  match unique_stations with
  | None => raise TypeError
  | Some unique_stations =>
      let info :=
        {| ClimateStats.INDEX := indexSearch;
           ClimateStats.PROPERTY := property;
           ClimateStats.MISSING_DATA_OPTION := input_missing_data_option;
           ClimateStats.MISSING_DATA_TOTAL := missing_data;
           ClimateStats.MISSIND_DATA_PERCENTAGE := missing_data_percentage;
           ClimateStats.MISSING_DATA_STATUS := missingParameters;
           ClimateStats.UNIQUE_STATIONS_COUNT :=
             ClimateStats.py_len unique_stations |} in
      statistics_result <- read_local "statistics_result" statistics_result ;;
      create_geojson_with_stats unique_stations statistics_result info
  end.

End TestScript.

(** ** Reference definitions the properties are stated against *)

Module Reference.

(** Lengths of the maximal contiguous runs of [None] of a sequence, left to
    right; [open] is the length of the run the scan is inside of. *)
Fixpoint missing_runs_from (open : nat) (l : list (option Q)) : list nat :=
  match l with
  | [] => match open with O => [] | S _ => [open] end
  | None :: rest => missing_runs_from (S open) rest
  | Some _ :: rest =>
      match open with O => [] | S _ => [open] end ++ missing_runs_from 0 rest
  end.

Definition missing_runs (l : list (option Q)) : list nat :=
  missing_runs_from 0 l.

(** A sequence written as its runs: a leading block of readings, then each
    run of [a] missing entries followed by a block of readings. *)
Definition run_block (b : nat * list Q) : list (option Q) :=
  repeat None (fst b) ++ map Some (snd b).

Definition interleaved (lead : list Q) (blocks : list (nat * list Q))
    : list (option Q) :=
  map Some lead ++ concat (map run_block blocks).

(** The runs are maximal and distinct: each has at least one entry and is
    separated from the next one by at least one reading. *)
Fixpoint separated (blocks : list (nat * list Q)) : Prop :=
  match blocks with
  | [] => True
  | (a, gap) :: rest =>
      (0 < a)%nat /\ (rest <> [] -> gap <> []) /\ separated rest
  end.

(** Number of missing entries. *)
Definition count_missing (l : list (option Q)) : nat :=
  List.length (filter (fun v => match v with None => true | Some _ => false end) l).



(** [q] is a binary64 number: float arithmetic returns it unchanged. *)
Definition is_binary64 (q : Q) : bool :=
  match to_float64 q with
  | Finite r => Qeq_bool r q
  | _ => false
  end.




(** The Standard Library's IEEE 754 specification at the binary64 format
    (53 bits of precision, exponents below 1024), to compare [to_float64]
    with: the datum of an [int], the float a datum denotes, and the sum, the
    product and the quotient of two [int]s converted to float. *)
Definition ieee_of_int (n : Z) : SpecFloat.spec_float :=
  SpecFloat.binary_normalize 53 1024 n 0 false.

Definition ieee_value (x : SpecFloat.spec_float) : float64 :=
  match x with
  | SpecFloat.S754_zero _ => Finite 0
  | SpecFloat.S754_infinity s => Infinite s
  | SpecFloat.S754_nan => NaN
  | SpecFloat.S754_finite s m e =>
      Finite (Qred (inject_Z (if s then Z.neg m else Z.pos m) * pow2 e))
  end.

Definition ieee_add (a b : Z) : float64 :=
  ieee_value (SpecFloat.SFadd 53 1024 (ieee_of_int a) (ieee_of_int b)).

Definition ieee_mul (a b : Z) : float64 :=
  ieee_value (SpecFloat.SFmul 53 1024 (ieee_of_int a) (ieee_of_int b)).

Definition ieee_div (a b : Z) : float64 :=
  ieee_value (SpecFloat.SFdiv 53 1024 (ieee_of_int a) (ieee_of_int b)).


(** [r] is [x] rounded to two decimals: a multiple of 1/100 at distance at
    most 1/200. *)
Definition rounded_to_2_decimals (x r : Q) : Prop :=
  (exists k : Z, r = Qmake k 100) /\ (Qabs (r - x) <= 1 # 200)%Q.

(** Number of elements satisfying [p]. *)
Definition how_many (p : Q -> bool) (xs : list Q) : Z :=
  Z.of_nat (List.length (filter p xs)).

(** [x in l] for the [==] given as [eqb]. *)
Definition is_member {A} (eqb : A -> A -> bool) (x : A) (l : list A) : bool :=
  existsb (fun y => eqb y x) l.

(** The elements of [l] that equal no element before them, in the order of
    [l]; [before] holds the elements already passed. *)
Fixpoint first_occurrences {A} (eqb : A -> A -> bool) (before l : list A)
    : list A :=
  match l with
  | [] => []
  | x :: rest =>
      (if existsb (fun y => eqb y x) before then [] else [x])
        ++ first_occurrences eqb (before ++ [x]) rest
  end.

(** No two elements at different positions are equal. *)
Fixpoint pairwise_distinct {A} (eqb : A -> A -> bool) (l : list A) : Prop :=
  match l with
  | [] => True
  | x :: rest =>
      existsb (fun y => eqb x y) rest = false /\ pairwise_distinct eqb rest
  end.

End Reference.

Import Reference.

(** The line printed when the run scan is given an [int]. *)
Definition scan_type_error : pystr :=
  [Lit "An error occurred in calculate_consecutive_missing_days: "; Exn TypeError].

(** Case split on a policy threshold taken from [[5; 10; 15]]. *)
Ltac policy_cases H :=
  simpl in H; destruct H as [H | [H | [H | []]]]; subst.

From Stdlib Require Import Permutation.

(** ** Query building: [build_query] of both files and its call in
    [climate_stats] *)

Module Query.

(** Values of the dynamically typed arguments of [build_query]: the bounding
    box (a dictionary of dictionaries), the lists of ids, years, ..., and the
    entries of a mapping. *)
#[warnings="-register-all"]
Inductive pyobj : Type :=
| ONone
| ONum (q : Q)
| OStr (s : string)
| OList (items : list pyobj)
| ODict (entries : list (string * pyobj)).

(** Exceptions of the query builder: a missing dictionary key, a subscript
    on a value that is not a dictionary, ["properties." + v] for a [v] that
    is not a string. *)
Inductive qexn : Type :=
| KeyError (key : string)
| SubscriptTypeError
| ConcatTypeError.

Inductive qresult (A : Type) : Type :=
| QReturn (a : A)
| QRaise (e : qexn).
Arguments QReturn {A} a.
Arguments QRaise {A} e.

(** What [build_query] prints: [f"Mapping: {mapping}"] and
    [f"An error occurred in build_query: {e}"]. *)
Inductive qline : Type :=
| MappingLine (mapping : list (string * pyobj))
| ErrorLine (e : qexn).

(** Printed lines (oldest first) and the outcome. *)
Definition QM (A : Type) : Type := (list qline * qresult A)%type.

Definition qret {A} (a : A) : QM A := ([], QReturn a).
Definition qraise {A} (e : qexn) : QM A := ([], QRaise e).
Definition qprint (l : qline) : QM unit := ([l], QReturn tt).

Definition qbind {A B} (m : QM A) (k : A -> QM B) : QM B :=
  match m with
  | (out, QReturn a) => let (out', r) := k a in (out ++ out', r)
  | (out, QRaise e) => (out, QRaise e)
  end.

Notation "x <~ m ;; k" := (qbind m (fun x => k))
  (at level 61, m at next level, right associativity).

(** [try: body  except Exception as e: print(f"An error occurred in
    build_query: {e}"); raise] *)
Definition qtry {A} (body : QM A) : QM A :=
  match body with
  | (out, QReturn a) => (out, QReturn a)
  | (out, QRaise e) => (out ++ [ErrorLine e], QRaise e)
  end.

(** [bool(v)] *)
Definition truthy (v : pyobj) : bool :=
  match v with
  | ONone => false
  | ONum q => negb (Qeq_bool q 0)
  | OStr s => negb (String.eqb s "")
  | OList items => match items with [] => false | _ :: _ => true end
  | ODict entries => match entries with [] => false | _ :: _ => true end
  end.

(** [d.get(key)] on the entries of a dictionary. *)
Fixpoint dict_get {A} (key : string) (entries : list (string * A)) : option A :=
  match entries with
  | [] => None
  | (k, v) :: rest => if String.eqb k key then Some v else dict_get key rest
  end.

(** [key in d] *)
Definition has_key {A} (key : string) (entries : list (string * A)) : bool :=
  match dict_get key entries with Some _ => true | None => false end.

(** [v[key]] for a string key. *)
Definition subscript (v : pyobj) (key : string) : QM pyobj :=
  match v with
  | ODict entries =>
      match dict_get key entries with
      | Some x => qret x
      | None => qraise (KeyError key)
      end
  | _ => qraise SubscriptTypeError
  end.

(** ["properties." + v] *)
Definition properties_dot (v : pyobj) : QM string :=
  match v with
  | OStr s => qret ("properties." ++ s)%string
  | _ => qraise ConcatTypeError
  end.

(** [{"terms": {field: values}}] *)
Record term : Type := {
  term_field : string;
  term_values : pyobj
}.

(** [{"geo_bounding_box": {"geometry": {"top_left": {"lat", "lon"},
    "bottom_right": {"lat", "lon"}}}}] *)
Record geo_bounding_box : Type := {
  top_left_lat : pyobj;
  top_left_lon : pyobj;
  bottom_right_lat : pyobj;
  bottom_right_lon : pyobj
}.

(** [{"query": {"bool": {"must": [...], "filter": ...}}}]; the key
    ["filter"] is present only when a bounding box was given. *)
Record query : Type := {
  must : list term;
  filter : option geo_bounding_box
}.

(** The block [if bbox: ... query["query"]["bool"]["filter"] = bbox_query],
    the same in both files. *)
Definition bbox_filter (bbox : pyobj) : QM (option geo_bounding_box) :=
  if truthy bbox then
    tl <~ subscript bbox "top_left" ;;
    tl_lat <~ subscript tl "lat" ;;
    tl <~ subscript bbox "top_left" ;;
    tl_lon <~ subscript tl "lon" ;;
    br <~ subscript bbox "bottom_right" ;;
    br_lat <~ subscript br "lat" ;;
    br <~ subscript bbox "bottom_right" ;;
    br_lon <~ subscript br "lon" ;;
    qret (Some {| top_left_lat := tl_lat; top_left_lon := tl_lon;
                  bottom_right_lat := br_lat; bottom_right_lon := br_lon |})
  else qret None.

(** [must.append({"terms": {"properties." + mapping[name]: values}})] *)
Definition append_terms (values : pyobj) (name : string)
    (mapping : list (string * pyobj)) (must : list term) : QM (list term) :=
  name_value <~ subscript (ODict mapping) name ;;
  field <~ properties_dot name_value ;;
  qret (must ++ [{| term_field := field; term_values := values |}]).

(** [if values and name in mapping: ...] (also written
    [if name in mapping and values: ...]) *)
Definition guarded_terms (values : pyobj) (name : string)
    (mapping : list (string * pyobj)) (must : list term) : QM (list term) :=
  if truthy values && has_key name mapping
  then append_terms values name mapping must
  else qret must.

(** [if values: ...], without the test of the mapping. *)
Definition plain_terms (values : pyobj) (name : string)
    (mapping : list (string * pyobj)) (must : list term) : QM (list term) :=
  if truthy values
  then append_terms values name mapping must
  else qret must.

(** [build_query] of climate_stats.py. *)
Definition build_query (mapping : list (string * pyobj))
    (bbox stations_ids years months days hours : pyobj) : QM query :=
  qtry
    (filter <~ bbox_filter bbox ;;
     _ <~ qprint (MappingLine mapping) ;;
     must <~ guarded_terms stations_ids "STN_IDName" mapping [] ;;
     must <~ guarded_terms years "yearName" mapping must ;;
     must <~ guarded_terms months "monthName" mapping must ;;
     must <~ guarded_terms days "dayName" mapping must ;;
     must <~ guarded_terms hours "hourName" mapping must ;;
     qret {| must := must; filter := filter |}).

(** [build_query] of test.py: no line is printed on success, and the
    station, year and month names are read from the mapping without a test. *)
Definition test_build_query (mapping : list (string * pyobj))
    (bbox station_ids years months days hours : pyobj) : QM query :=
  qtry
    (filter <~ bbox_filter bbox ;;
     must <~ plain_terms station_ids "STN_IDName" mapping [] ;;
     must <~ plain_terms years "yearName" mapping must ;;
     must <~ plain_terms months "monthName" mapping must ;;
     must <~ guarded_terms days "dayName" mapping must ;;
     must <~ guarded_terms hours "hourName" mapping must ;;
     qret {| must := must; filter := filter |}).

Definition strs (l : list string) : pyobj := OList (map OStr l).

(** The dictionary [data_mapping] (the same in both files). *)
Definition data_mapping : list (string * list (string * pyobj)) :=
  [ ("climate_normals_data",
     [ ("STN_IDName", OStr "STN_ID");
       ("property", OStr "VALUE");
       ("monthName", OStr "MONTH") ]);
    ("climate_public_hourly_data",
     [ ("STN_IDName", OStr "STN_ID");
       ("property", OStr "TEMP");
       ("yearName", OStr "LOCAL_YEAR");
       ("monthName", OStr "LOCAL_MONTH");
       ("dayName", OStr "LOCAL_DAY");
       ("hourName", OStr "LOCAL_HOUR") ]);
    ("climate_public_daily_data",
     [ ("STN_IDName", OStr "STN_ID");
       ("property", strs ["TOTAL_PRECIPITATION"; "TOTAL_SNOW"; "TOTAL_RAIN"]);
       ("yearName", OStr "LOCAL_YEAR");
       ("monthName", OStr "LOCAL_MONTH");
       ("dayName", OStr "LOCAL_DAY") ]);
    ("climate_public_climate_summary",
     [ ("STN_IDName", OStr "STN_ID");
       ("property",
        strs ["TOTAL_PRECIPITATION"; "TOTAL_SNOWFALL"; "NORMAL_SNOWFALL";
              "NORMAL_SUNSHINE"; "NORMAL_PRECIPITATION"; "MAX_TEMPERATURE";
              "MIN_TEMPERATURE"; "MEAN_TEMPERATURE"]);
       ("fieldName_totalDays",
        strs ["COOLING_DEGREE_DAYS"; "DAYS_WITH_PRECIP_GE_1MM";
              "HEATING_DEGREE_DAYS"]);
       ("yearName", OStr "LOCAL_YEAR");
       ("monthName", OStr "LOCAL_MONTH") ]) ]%string.

(** [data_mapping.get(str(index), {})] *)
Definition mapping_of (index : string) : list (string * pyobj) :=
  match dict_get index data_mapping with
  | Some mapping => mapping
  | None => []
  end.

(** The call [build_query(mapping, stations_ids, bbox, years, months, days,
    hours)] made by [climate_stats(index, ..., bbox, stations_ids, ...)]:
    the arguments are positional, so the ids arrive in the parameter [bbox]
    and the box in the parameter [stations_ids]. *)
Definition climate_stats_query (index : string)
    (bbox stations_ids years months days hours : pyobj) : QM query :=
  let mapping := mapping_of index in
  build_query mapping stations_ids bbox years months days hours.

(** The five [(values, name)] pairs in the order they are tested. *)
Definition filters (stations_ids years months days hours : pyobj)
    : list (pyobj * string) :=
  [ (stations_ids, "STN_IDName"); (years, "yearName"); (months, "monthName");
    (days, "dayName"); (hours, "hourName") ]%string.

(** The names a mapping gives are strings. *)
Definition string_names (mapping : list (string * pyobj)) : Prop :=
  forall name v,
    In name ["STN_IDName"; "yearName"; "monthName"; "dayName"; "hourName"]%string ->
    dict_get name mapping = Some v -> exists s, v = OStr s.

(** A bounding box that is absent (falsy) or carries its four numbers. *)
Definition box_given (bbox : pyobj) (box : option geo_bounding_box) : Prop :=
  match box with
  | None => truthy bbox = false
  | Some b =>
      truthy bbox = true
      /\ exists tl br,
           subscript bbox "top_left" = qret (ODict tl)
           /\ subscript bbox "bottom_right" = qret (ODict br)
           /\ dict_get "lat"%string tl = Some (top_left_lat b)
           /\ dict_get "lon"%string tl = Some (top_left_lon b)
           /\ dict_get "lat"%string br = Some (bottom_right_lat b)
           /\ dict_get "lon"%string br = Some (bottom_right_lon b)
  end.

(** The term a filter contributes when its name is looked up with a test:
    one term when the values are truthy and the mapping names a field,
    none otherwise. *)
Definition wanted (mapping : list (string * pyobj)) (f : pyobj * string)
    : list term :=
  if truthy (fst f) then
    match dict_get (snd f) mapping with
    | Some (OStr s) =>
        [{| term_field := ("properties." ++ s)%string; term_values := fst f |}]
    | _ => []
    end
  else [].

(** The first of the station, year and month filters that is given while
    the mapping has no name for it. *)
Definition first_unnamed (mapping : list (string * pyobj))
    (station_ids years months : pyobj) : option string :=
  if truthy station_ids && negb (has_key "STN_IDName" mapping)
  then Some "STN_IDName"%string
  else if truthy years && negb (has_key "yearName" mapping)
  then Some "yearName"%string
  else if truthy months && negb (has_key "monthName" mapping)
  then Some "monthName"%string
  else None.

End Query.

(** ** [process_station_hits] of test.py *)

Module StationHits.

(** [print(s)] *)
Definition print (s : pystr) : M unit := ([s], Return tt).

Definition has_hits (station_id : Z) : pystr :=
  [Lit "Station ID "; Val (PyInt station_id); Lit " has hits!"].

Definition has_no_hits (station_id : Z) : pystr :=
  [Lit "Station ID "; Val (PyInt station_id); Lit " has no hits."].

(** One round of the loop over [station_ids]. *)
Definition station_round (es_hits : list ClimateStats.hit)
    (query_info : list pystr) (station_id : Z) : M (list pystr) :=
  let station_hits :=
    List.filter (fun hit => ClimateStats.STN_ID hit =? station_id) es_hits in
  match station_hits with
  | _ :: _ =>
      let query_info := query_info ++ [has_hits station_id] in
      _ <- print (has_hits station_id) ;;
      ret query_info
  | [] =>
      let query_info := query_info ++ [has_no_hits station_id] in
      _ <- print (has_no_hits station_id) ;;
      ret query_info
  end.

(** [es_hits] is [result_test['hits']['hits']]. *)
Definition process_station_hits (station_ids : list Z)
    (es_hits : list ClimateStats.hit) : M (list pystr) :=
  fold_left
    (fun (state : M (list pystr)) station_id =>
       query_info <- state ;;
       station_round es_hits query_info station_id)
    station_ids (ret []).

(** The message for one station id: whether some fetched record has it. *)
Definition station_message (es_hits : list ClimateStats.hit) (station_id : Z)
    : pystr :=
  if existsb (fun hit => ClimateStats.STN_ID hit =? station_id) es_hits
  then has_hits station_id
  else has_no_hits station_id.

End StationHits.

(** ** Further reference definitions *)

(** The longest run of a sequence scanned with [c] missing entries already
    open before it. *)
Definition longest_from (c : nat) (l : list (option Q)) : nat :=
  list_max (missing_runs_from c l).

(** The policy equals one of None, 5, 10, 15 and "WMO". *)
Definition policy_known (opt : pyval) : bool :=
  py_eq opt PyNone || py_eq opt (PyInt 5) || py_eq opt (PyInt 10)
  || py_eq opt (PyInt 15) || py_eq opt (PyStr "WMO").


(** ** Properties *)

(** *** The monad *)

Lemma bind_ret_l {A B} (a : A) (k : A -> M B) : bind ([], Return a) k = k a.
Proof. unfold bind. destruct (k a); reflexivity. Qed.

Lemma Qltb_lt (a b : Q) : Qltb a b = true <-> (a < b)%Q.
Proof.
  unfold Qltb. rewrite Qlt_alt.
  destruct (a ?= b)%Q; split; congruence.
Qed.

Lemma Qltb_ge (a b : Q) : Qltb a b = false <-> (b <= a)%Q.
Proof.
  rewrite Qle_alt. unfold Qltb. rewrite <- (Qcompare_antisym a b).
  destruct (a ?= b)%Q; simpl; split; congruence.
Qed.

(** *** check_missing_data_options *)

(** test.py: under a percentage policy the status is "OK" up to and
    including the threshold and the filtered message above it. *)
Lemma test_py_percentage_policy (P : Z) (pct : Q) (md run : Z) :
  In P [5; 10; 15] ->
  TestScript.check_missing_data_options (PyInt P) pct md run
  = ([], Return (if Qle_bool pct (inject_Z P) then status_OK
                 else filtered_message pct (PyInt P))).
Proof.
  intros H.
  assert (E : Qle_bool pct (inject_Z P) = negb (Qltb (inject_Z P) pct)).
  { destruct (Qltb (inject_Z P) pct) eqn:L; simpl.
    - apply Qltb_lt in L. destruct (Qle_bool pct (inject_Z P)) eqn:G; auto.
      apply Qle_bool_iff in G. exfalso. exact (Qlt_not_le _ _ L G).
    - apply Qltb_ge in L. apply Qle_bool_iff. exact L. }
  rewrite E.
  policy_cases H; unfold TestScript.check_missing_data_options,
    TestScript.percentage_branch, float_gt; simpl;
    match goal with |- context [Qltb ?a ?b] => destruct (Qltb a b) end;
    reflexivity.
Qed.

(** climate_stats.py: "OK" up to and including the threshold; above it the
    f-string cannot be built. *)
Lemma climate_stats_percentage_policy (P : Z) (pct : Q) (md run : Z) :
  In P [5; 10; 15] ->
  ClimateStats.check_missing_data_options (PyInt P) pct md run
  = if Qle_bool pct (inject_Z P) then ([], Return status_OK)
    else ([not_acceptable_message (PyInt P) (NameError "percentage_missing_data")],
          Raise (NameError "percentage_missing_data")).
Proof.
  intros H.
  assert (E : Qle_bool pct (inject_Z P) = negb (Qltb (inject_Z P) pct)).
  { destruct (Qltb (inject_Z P) pct) eqn:L; simpl.
    - apply Qltb_lt in L. destruct (Qle_bool pct (inject_Z P)) eqn:G; auto.
      apply Qle_bool_iff in G. exfalso. exact (Qlt_not_le _ _ L G).
    - apply Qltb_ge in L. apply Qle_bool_iff. exact L. }
  rewrite E.
  policy_cases H; unfold ClimateStats.check_missing_data_options,
    ClimateStats.percentage_branch, float_gt; simpl;
    match goal with |- context [Qltb ?a ?b] => destruct (Qltb a b) end;
    reflexivity.
Qed.

(** Both files have the same WMO branch. *)
Lemma wmo_branch_same (pct : Q) (md run : Z) :
  TestScript.check_missing_data_options (PyStr "WMO") pct md run
  = ClimateStats.check_missing_data_options (PyStr "WMO") pct md run.
Proof. reflexivity. Qed.

Lemma wmo_branch_eval (pct : Q) (md run : Z) :
  ClimateStats.check_missing_data_options (PyStr "WMO") pct md run
  = ([], Return (if (md =? 0) || (run =? 0) then status_OK
                 else if (md >=? 11) || (run >=? 5) then status_WMO
                 else status_OK)).
Proof.
  unfold ClimateStats.check_missing_data_options; simpl.
  destruct ((md =? 0) || (run =? 0)); simpl; [reflexivity|].
  destruct ((md >=? 11) || (run >=? 5)); reflexivity.
Qed.

(** When the run is no longer than the count, as for two values computed
    from one sequence, the first test of the WMO branch amounts to a test of
    the run. *)
Lemma wmo_run_only_when_coherent (pct : Q) (md run : Z) :
  0 <= run <= md ->
  ClimateStats.check_missing_data_options (PyStr "WMO") pct md run
  = ([], Return (if run =? 0 then status_OK
                 else if (md >=? 11) || (run >=? 5) then status_WMO
                 else status_OK)).
Proof.
  intros H. rewrite wmo_branch_eval.
  destruct (run =? 0) eqn:R.
  - rewrite Bool.orb_true_r. reflexivity.
  - apply Z.eqb_neq in R.
    assert (E : (md =? 0) = false) by (apply Z.eqb_neq; lia).
    rewrite E. reflexivity.
Qed.

(** C1, as the code has it: for policy "WMO", check_missing_data_options
    returns "OK" whenever the missing-day count is 0 or the longest run is 0;
    otherwise it returns "WMO criteria met: Missing or invalid month" if and
    only if the missing-day count is at least 11 or the longest run is at
    least 5, and "OK" otherwise.  In particular (10, 4) gives "OK", and
    (11, 4) and (3, 5) give the criteria-met message.  test.py agrees. *)
Theorem C1_wmo_policy (pct : Q) (md run : Z) :
  let check := ClimateStats.check_missing_data_options (PyStr "WMO") in
  (md = 0 \/ run = 0 -> check pct md run = ([], Return status_OK))
  /\ (md <> 0 /\ run <> 0 ->
      (check pct md run = ([], Return status_WMO) <-> (md >= 11 \/ run >= 5))
      /\ (check pct md run = ([], Return status_OK) <-> ~ (md >= 11 \/ run >= 5)))
  /\ check pct 10 4 = ([], Return status_OK)
  /\ check pct 11 4 = ([], Return status_WMO)
  /\ check pct 3 5 = ([], Return status_WMO)
  /\ TestScript.check_missing_data_options (PyStr "WMO") pct md run
     = check pct md run.
Proof.
  cbv zeta. rewrite !wmo_branch_eval.
  split; [|split; [|repeat split; try reflexivity; rewrite wmo_branch_same; apply wmo_branch_eval]].
  - intros [-> | ->]; simpl; [reflexivity|].
    rewrite Bool.orb_true_r. reflexivity.
  - intros [Hm Hr].
    apply Z.eqb_neq in Hm, Hr. rewrite Hm, Hr. simpl.
    destruct ((md >=? 11) || (run >=? 5)) eqn:E.
    + apply Bool.orb_true_iff in E. rewrite !Z.geb_le in E.
      split; split; intros H; try reflexivity; try lia.
      exfalso. inversion H.
    + apply Bool.orb_false_iff in E. rewrite !Z.geb_leb, !Z.leb_gt in E.
      split; split; intros H; try reflexivity; try lia.
      exfalso. inversion H.
Qed.

(** C1 as stated fails: with no missing day counted and a longest run of 5,
    the run is not 0 and reaches the threshold of 5, yet the status is "OK"
    and not the criteria-met message. *)
Lemma C1_wmo_run_only_counterexample :
  ClimateStats.check_missing_data_options (PyStr "WMO") 0 0 5
  = ([], Return status_OK)
  /\
  ~ ((5 = 0 ->
      ClimateStats.check_missing_data_options (PyStr "WMO") 0 0 5
      = ([], Return status_OK))
     /\ (5 <> 0 ->
         (ClimateStats.check_missing_data_options (PyStr "WMO") 0 0 5
          = ([], Return status_WMO) <-> (0 >= 11 \/ 5 >= 5)))).
Proof.
  split; [reflexivity|].
  intros [_ H].
  assert (N : 5 <> 0) by discriminate.
  destruct (H N) as [_ H2].
  assert (G : 0 >= 11 \/ 5 >= 5) by (right; lia).
  specialize (H2 G). vm_compute in H2. discriminate H2.
Qed.

(** C2 fails on climate_stats.py: for each policy P in 5, 10, 15 both files
    answer "OK" exactly when the percentage is at most P; above P test.py
    returns the filtered message carrying the percentage and P, while
    climate_stats.py raises NameError, because its f-string reads
    [percentage_missing_data] and its parameter is named
    [missing_data_percentage].  At policy 10: 10.00 gives "OK" in both files,
    10.01 gives the message in test.py and NameError in climate_stats.py. *)
Theorem C2_percentage_policy_name_error (pct : Q) (md run : Z) :
  Forall
    (fun P =>
       ClimateStats.check_missing_data_options (PyInt P) pct md run
       = (if Qle_bool pct (inject_Z P) then ([], Return status_OK)
          else ([not_acceptable_message (PyInt P)
                   (NameError "percentage_missing_data")],
                Raise (NameError "percentage_missing_data")))
       /\ TestScript.check_missing_data_options (PyInt P) pct md run
          = ([], Return (if Qle_bool pct (inject_Z P) then status_OK
                         else filtered_message pct (PyInt P))))
    [5; 10; 15]
  /\ ClimateStats.check_missing_data_options (PyInt 10) (1001 # 100) 0 0
     = ([not_acceptable_message (PyInt 10) (NameError "percentage_missing_data")],
        Raise (NameError "percentage_missing_data"))
  /\ TestScript.check_missing_data_options (PyInt 10) (1001 # 100) 0 0
     = ([], Return (filtered_message (1001 # 100) (PyInt 10)))
  /\ ClimateStats.check_missing_data_options (PyInt 10) (1000 # 100) 0 0
     = ([], Return status_OK)
  /\ TestScript.check_missing_data_options (PyInt 10) (1000 # 100) 0 0
     = ([], Return status_OK).
Proof.
  split; [|repeat split; vm_compute; reflexivity].
  repeat constructor;
    first [ apply climate_stats_percentage_policy
          | apply test_py_percentage_policy ];
    simpl; tauto.
Qed.

(** C8: for every policy value that equals none of None, 5, 10, 15 and "WMO",
    check_missing_data_options returns no status: no branch assigns
    [missing_data_option_status], the [return] raises, the handler prints
    that the option is not acceptable and the exception is raised again to
    the caller.  Both files behave so. *)
Theorem C8_unknown_policy_raises (opt : pyval) (pct : Q) (md run : Z) :
  py_eq opt PyNone = false ->
  py_eq opt (PyInt 5) = false ->
  py_eq opt (PyInt 10) = false ->
  py_eq opt (PyInt 15) = false ->
  py_eq opt (PyStr "WMO") = false ->
  let e := UnboundLocalError "missing_data_option_status" in
  ClimateStats.check_missing_data_options opt pct md run
  = ([not_acceptable_message opt e], Raise e)
  /\ TestScript.check_missing_data_options opt pct md run
     = ([not_acceptable_message opt e], Raise e)
  /\ (forall s, outcome (ClimateStats.check_missing_data_options opt pct md run)
                <> Return s).
Proof.
  intros H0 H5 H10 H15 HW e.
  unfold ClimateStats.check_missing_data_options,
    TestScript.check_missing_data_options.
  rewrite H0, H5, H10, H15, HW. simpl.
  repeat split. intros s. discriminate.
Qed.

(** The command line's default option is the text "None", which is not the
    value None. *)
Lemma C8_unknown_policy_witness :
  ClimateStats.check_missing_data_options (PyStr "None") 0 0 0
  = ([not_acceptable_message (PyStr "None")
        (UnboundLocalError "missing_data_option_status")],
     Raise (UnboundLocalError "missing_data_option_status")).
Proof.
  refine (proj1 (C8_unknown_policy_raises (PyStr "None") 0 0 0 _ _ _ _ _));
    reflexivity.
Defined.

(** *** calculate_missing_days and calculate_consecutive_missing_days *)

Lemma missing_fold (l : list (option Q)) (a : Z) :
  fold_left ClimateStats.missing_step l a = a + Z.of_nat (count_missing l).
Proof.
  revert a. unfold count_missing.
  induction l as [|[v|] l IH]; intros a; simpl.
  - lia.
  - apply IH.
  - rewrite IH. lia.
Qed.

Lemma open_run_max (c : nat) :
  list_max (match c with O => [] | S _ => [c] end) = c.
Proof. destruct c; simpl; lia. Qed.

Lemma missing_runs_from_ge (l : list (option Q)) (c : nat) :
  (c <= list_max (missing_runs_from c l))%nat.
Proof.
  revert c. induction l as [|[v|] l IH]; intros c; simpl.
  - rewrite open_run_max. lia.
  - rewrite list_max_app, open_run_max. lia.
  - specialize (IH (S c)). lia.
Qed.

(** The loop invariant: with [c] the length of the run the scan is inside of
    and [m >= c] the maximum so far, the loop ends with the larger of [m] and
    the longest run of what is left to scan. *)
Lemma consecutive_fold (l : list (option Q)) (c : nat) (m : Z) :
  Z.of_nat c <= m ->
  snd (fold_left ClimateStats.consecutive_step l (Z.of_nat c, m))
  = Z.max m (Z.of_nat (list_max (missing_runs_from c l))).
Proof.
  revert c m. induction l as [|[v|] l IH]; intros c m Hc; simpl.
  - rewrite open_run_max. lia.
  - change (0, m) with (Z.of_nat 0, m).
    rewrite (IH 0%nat m) by lia.
    rewrite list_max_app, open_run_max. lia.
  - replace (Z.of_nat c + 1) with (Z.of_nat (S c)) by lia.
    rewrite IH by lia.
    pose proof (missing_runs_from_ge l (S c)). lia.
Qed.

Lemma consecutive_eval (l : list (option Q)) :
  ClimateStats.calculate_consecutive_missing_days (DList l)
  = ([], Return (Z.of_nat (list_max (missing_runs l)))).
Proof.
  unfold ClimateStats.calculate_consecutive_missing_days. simpl.
  change (0, 0) with (Z.of_nat 0, 0).
  rewrite (consecutive_fold l 0 0) by lia.
  unfold missing_runs. f_equal. f_equal. lia.
Qed.

Lemma missing_days_eval (l : list (option Q)) :
  ClimateStats.calculate_missing_days (DList l)
  = ([], Return (Z.of_nat (count_missing l))).
Proof.
  unfold ClimateStats.calculate_missing_days. simpl.
  rewrite missing_fold. reflexivity.
Qed.

Lemma runs_skip_readings (lead : list Q) (rest : list (option Q)) :
  missing_runs_from 0 (map Some lead ++ rest) = missing_runs_from 0 rest.
Proof. induction lead as [|x lead IH]; simpl; auto. Qed.

Lemma runs_extend (a c : nat) (rest : list (option Q)) :
  missing_runs_from c (repeat None a ++ rest) = missing_runs_from (a + c) rest.
Proof.
  revert c. induction a as [|a IH]; intros c; simpl; auto.
  rewrite IH. f_equal. lia.
Qed.

(** The reference run lengths of a sequence written as its runs are the runs
    it was written from. *)
Lemma missing_runs_interleaved (lead : list Q) (blocks : list (nat * list Q)) :
  separated blocks ->
  missing_runs (interleaved lead blocks) = map fst blocks.
Proof.
  unfold missing_runs, interleaved. rewrite runs_skip_readings.
  induction blocks as [|[a gap] blocks IH]; simpl; auto.
  intros (Ha & Hgap & Hsep).
  unfold run_block at 1. simpl.
  rewrite <- app_assoc, runs_extend, Nat.add_0_r.
  destruct gap as [|x gap]; simpl.
  - destruct blocks as [|b blocks].
    + simpl. destruct a; [lia | reflexivity].
    + exfalso. apply Hgap; [discriminate | reflexivity].
  - rewrite runs_skip_readings, IH by assumption.
    destruct a; [lia | reflexivity].
Qed.

Lemma no_missing_runs (l : list (option Q)) (c : nat) :
  count_missing l = 0%nat -> list_max (missing_runs_from c l) = c.
Proof.
  unfold count_missing. revert c.
  induction l as [|[v|] l IH]; intros c H; simpl in *.
  - apply open_run_max.
  - rewrite list_max_app, open_run_max, (IH 0%nat H). lia.
  - discriminate.
Qed.

Lemma some_missing_runs (l : list (option Q)) (c : nat) :
  (0 < count_missing l)%nat -> (0 < list_max (missing_runs_from c l))%nat.
Proof.
  unfold count_missing. revert c.
  induction l as [|[v|] l IH]; intros c H; simpl in *.
  - lia.
  - rewrite list_max_app. specialize (IH 0%nat H). lia.
  - pose proof (missing_runs_from_ge l (S c)). lia.
Qed.

Lemma count_missing_all_readings (l : list (option Q)) :
  Forall (fun v => v <> None) l -> count_missing l = 0%nat.
Proof.
  unfold count_missing. induction 1 as [|[v|] l H _ IH]; simpl; auto.
  congruence.
Qed.

(** Every sequence is written as separated runs, with a first block of readings. *)
Lemma every_sequence_interleaved (l : list (option Q)) :
  exists lead blocks, separated blocks /\ l = interleaved lead blocks.
Proof.
  induction l as [|[v|] l (lead & blocks & Hsep & ->)].
  - exists [], []. split; [exact I | reflexivity].
  - exists (v :: lead), blocks. split; [assumption | reflexivity].
  - destruct lead as [|x lead].
    + destruct blocks as [|[a gap] rest].
      * exists [], [(1%nat, [])]. split; [|reflexivity].
        simpl. repeat split; [lia | congruence].
      * exists [], ((S a, gap) :: rest). split; [|reflexivity].
        simpl in *. destruct Hsep as (Ha & Hgap & Hrest).
        repeat split; [lia | assumption | assumption].
    + exists [], ((1%nat, x :: lead) :: blocks). split.
      * simpl. repeat split; [lia | discriminate | assumption].
      * reflexivity.
Qed.

(** C6: calculate_consecutive_missing_days returns the maximum of the
    lengths of the maximal contiguous runs of None of the sequence; for a
    sequence written as runs of lengths a, b, c, ... separated by readings
    the result is max(a, b, c, ...); with no missing entry it is 0.  Every
    sequence can be written in that form; runs of 1, 3 and 2 give 3. *)
Theorem C6_longest_missing_run (l : list (option Q)) :
  ClimateStats.calculate_consecutive_missing_days (DList l)
  = ([], Return (Z.of_nat (list_max (missing_runs l))))
  /\ (forall lead blocks,
        separated blocks -> l = interleaved lead blocks ->
        ClimateStats.calculate_consecutive_missing_days (DList l)
        = ([], Return (Z.of_nat (list_max (map fst blocks)))))
  /\ (Forall (fun v => v <> None) l ->
      ClimateStats.calculate_consecutive_missing_days (DList l)
      = ([], Return 0))
  /\ (exists lead blocks, separated blocks /\ l = interleaved lead blocks)
  /\ ClimateStats.calculate_consecutive_missing_days
       (DList [None; Some 1; None; None; None; Some 2; None; None]%Q)
     = ([], Return 3).
Proof.
  rewrite consecutive_eval.
  split; [|split; [|split; [|split; [apply every_sequence_interleaved|]]]];
    [reflexivity| | |reflexivity].
  - intros lead blocks Hsep ->. rewrite missing_runs_interleaved by assumption.
    reflexivity.
  - intros H. unfold missing_runs.
    rewrite (no_missing_runs l 0 (count_missing_all_readings l H)).
    reflexivity.
Qed.

(** C10: on one sequence calculate_missing_days returns 0 exactly when
    calculate_consecutive_missing_days returns 0; hence with both inputs of
    the WMO branch computed from that sequence its first test
    [missing_days == 0 or consecutive_missing_days == 0] has the value of
    [consecutive_missing_days == 0], and the status is the one a test of the
    run alone gives. *)
Theorem C10_zero_missing_iff_zero_run (l : list (option Q)) :
  exists md run : Z,
    ClimateStats.calculate_missing_days (DList l) = ([], Return md)
    /\ ClimateStats.calculate_consecutive_missing_days (DList l) = ([], Return run)
    /\ (md = 0 <-> run = 0)
    /\ (md =? 0) || (run =? 0) = (run =? 0)
    /\ (forall pct,
          ClimateStats.check_missing_data_options (PyStr "WMO") pct md run
          = ([], Return (if run =? 0 then status_OK
                         else if (md >=? 11) || (run >=? 5) then status_WMO
                         else status_OK))).
Proof.
  exists (Z.of_nat (count_missing l)), (Z.of_nat (list_max (missing_runs l))).
  assert (E : Z.of_nat (count_missing l) = 0
              <-> Z.of_nat (list_max (missing_runs l)) = 0).
  { unfold missing_runs. split; intros H.
    - rewrite (no_missing_runs l 0) by lia. reflexivity.
    - destruct (count_missing l) eqn:C; [reflexivity|].
      pose proof (some_missing_runs l 0) as P. rewrite C in P. lia. }
  assert (B : (Z.of_nat (count_missing l) =? 0)
              || (Z.of_nat (list_max (missing_runs l)) =? 0)
              = (Z.of_nat (list_max (missing_runs l)) =? 0)).
  { destruct (Z.of_nat (list_max (missing_runs l)) =? 0) eqn:R.
    - apply Bool.orb_true_r.
    - rewrite Bool.orb_false_r. apply Z.eqb_neq. apply Z.eqb_neq in R.
      intros H. apply R, E, H. }
  repeat split.
  - apply missing_days_eval.
  - apply consecutive_eval.
  - apply E.
  - apply E.
  - exact B.
  - intros pct. rewrite wmo_branch_eval, B. reflexivity.
Qed.

(** *** Rounding *)

Lemma round_half_even_comp (p q : Q) :
  (p == q)%Q -> round_half_even p = round_half_even q.
Proof.
  intros H. unfold round_half_even.
  rewrite (Qfloor_comp _ _ H).
  assert (E : (p - inject_Z (Qfloor q) == q - inject_Z (Qfloor q))%Q)
    by (rewrite H; reflexivity).
  rewrite (Qcompare_comp _ _ E _ _ (Qeq_refl (1 # 2))). reflexivity.
Qed.

Lemma round_half_even_near (q : Q) :
  (Qabs (inject_Z (round_half_even q) - q) <= 1 # 2)%Q.
Proof.
  unfold round_half_even.
  pose proof (Qfloor_le q) as Hlo.
  pose proof (Qlt_floor q) as Hhi.
  rewrite inject_Z_plus in Hhi. change (inject_Z 1) with 1%Q in Hhi.
  apply Qabs_Qle_condition.
  destruct (q - inject_Z (Qfloor q) ?= 1 # 2)%Q eqn:C.
  - apply Qeq_alt in C.
    destruct (Z.even (Qfloor q));
      rewrite ?inject_Z_plus; change (inject_Z 1) with 1%Q; split; lra.
  - apply Qlt_alt in C. split; lra.
  - apply Qgt_alt in C. rewrite inject_Z_plus. change (inject_Z 1) with 1%Q.
    split; lra.
Qed.

Lemma round2_comp (p q : Q) : (p == q)%Q -> round2 p = round2 q.
Proof.
  intros H. unfold round2. f_equal. apply round_half_even_comp.
  rewrite H. reflexivity.
Qed.

Lemma round2_rounded (x : Q) : rounded_to_2_decimals x (round2 x).
Proof.
  split.
  - exists (round_half_even (x * 100)). reflexivity.
  - unfold round2.
    pose proof (round_half_even_near (x * 100)) as H.
    apply Qabs_Qle_condition in H. apply Qabs_Qle_condition.
    rewrite (Qmake_Qdiv (round_half_even (x * 100)) 100).
    set (k := inject_Z (round_half_even (x * 100))) in *.
    change (inject_Z (Z.pos 100)) with 100%Q.
    unfold Qdiv. change (/ 100)%Q with (1 # 100)%Q.
    destruct H as [H1 H2]. split; lra.
Qed.

(** *** Binary64 rounding *)

Lemma nearest64_comp (p q : Q) : (p == q)%Q -> nearest64 p = nearest64 q.
Proof.
  intros H. unfold nearest64. rewrite (Qred_complete _ _ H). reflexivity.
Qed.

Lemma to_float64_comp (p q : Q) : (p == q)%Q -> to_float64 p = to_float64 q.
Proof.
  intros H. unfold to_float64. rewrite (nearest64_comp _ _ H). reflexivity.
Qed.

(** Float arithmetic returns a binary64 number as it is. *)
Lemma is_binary64_exact (q : Q) :
  is_binary64 q = true ->
  exists r, to_float64 q = Finite r /\ nearest64 q = r /\ (r == q)%Q.
Proof.
  unfold is_binary64, to_float64.
  destruct (Qle_bool (pow2 1024) (Qabs (nearest64 q))); [discriminate|].
  intros H. exists (nearest64 q).
  split; [reflexivity|]. split; [reflexivity|].
  apply Qeq_bool_iff, H.
Qed.

(** On these operands (quotients that round down and up, sums on a tie, a
    product that rounds, overflows, subnormal quotients) [to_float64] of the
    exact result is the result of the Standard Library's IEEE 754
    operation. *)
Lemma to_float64_agrees_with_ieee :
  to_float64 (23 # 160) = ieee_div 23 160
  /\ to_float64 (1 # 3) = ieee_div 1 3
  /\ to_float64 (2 # 3) = ieee_div 2 3
  /\ to_float64 (-1 # 10) = ieee_div (-1) 10
  /\ to_float64 (inject_Z (2 ^ 53 + 1)) = ieee_add (2 ^ 53) 1
  /\ to_float64 (inject_Z (2 ^ 53 + 3)) = ieee_add (2 ^ 53 + 2) 1
  /\ to_float64 (inject_Z ((2 ^ 53 - 1) * (2 ^ 53 - 1)))
     = ieee_mul (2 ^ 53 - 1) (2 ^ 53 - 1)
  /\ to_float64 (inject_Z (2 * (2 ^ 1023 - 2 ^ 970) + 2 ^ 1023))
     = ieee_add (2 * (2 ^ 1023 - 2 ^ 970)) (2 ^ 1023)
  /\ ieee_add (2 * (2 ^ 1023 - 2 ^ 970)) (2 ^ 1023) = Infinite false
  /\ to_float64 (inject_Z (- 2 ^ 1023 * 2)) = ieee_mul (- 2 ^ 1023) 2
  /\ to_float64 (1 # (3 * 2 ^ 1021)) = ieee_div 1 (3 * 2 ^ 1021)
  /\ to_float64 (5 # (7 * 2 ^ 1021)) = ieee_div 5 (7 * 2 ^ 1021)
  /\ to_float64 (1 # 2 ^ 1023) = ieee_div 1 (2 ^ 1023).
Proof. vm_compute. repeat split. Qed.

(** *** The pipeline *)

Lemma calculate_missing_data_eval (es_hits : list ClimateStats.hit) :
  ClimateStats.calculate_missing_data es_hits
  = ([], Return (Z.of_nat (count_missing (map ClimateStats.field_value es_hits)))).
Proof.
  unfold ClimateStats.calculate_missing_data. simpl. f_equal. f_equal.
  assert (G : forall a,
    fold_left
      (fun (missing_data_count : Z) (h : ClimateStats.hit) =>
         match ClimateStats.field_value h with
         | Some _ => missing_data_count
         | None => missing_data_count + 1
         end) es_hits a
    = a + Z.of_nat (count_missing (map ClimateStats.field_value es_hits))).
  { unfold count_missing.
    induction es_hits as [|h hs IH]; intros a; simpl; [lia|].
    rewrite IH. destruct (ClimateStats.field_value h); simpl; lia. }
  apply G.
Qed.

Lemma percentage_of_zero (missing_data : Z) :
  ClimateStats.percentage_of missing_data 0 = ([], Raise ZeroDivisionError).
Proof. reflexivity. Qed.

Lemma percentage_of_nonzero (missing_data es_count : Z) :
  es_count <> 0 ->
  ClimateStats.percentage_of missing_data es_count
  = ([], Return (round2 (float_mul_int
                           (nearest64 (inject_Z missing_data / inject_Z es_count))
                           100))).
Proof.
  intros H. unfold ClimateStats.percentage_of, int_truediv.
  apply Z.eqb_neq in H. rewrite H. reflexivity.
Qed.

Lemma float_mul_int_exact (x : Q) (n : Z) :
  is_binary64 (inject_Z n) = true -> is_binary64 (x * inject_Z n) = true ->
  (float_mul_int x n == x * inject_Z n)%Q.
Proof.
  intros Hn Hp. unfold float_mul_int.
  destruct (is_binary64_exact _ Hn) as [r [_ [-> R]]].
  destruct (is_binary64_exact _ Hp) as [r' [_ [N R']]].
  rewrite (nearest64_comp (x * r) (x * inject_Z n)) by (rewrite R; reflexivity).
  rewrite N. exact R'.
Qed.

(** The scan of an [int] fails before its first round. *)
Lemma consecutive_of_int (n : Z) :
  ClimateStats.calculate_consecutive_missing_days (DInt n)
  = ([scan_type_error], Raise TypeError).
Proof. reflexivity. Qed.

(** C7, as the code has it: the missing-data percentage is
    round((missing / total) * 100, 2) in float arithmetic, the quotient and
    then the product each rounded to binary64: a multiple of 0.01 within
    0.005 of that product.  It is round(100 * missing / total, 2) whenever
    neither the quotient nor the product is rounded.  The computation raises
    ZeroDivisionError exactly when the total is 0, and in the pipeline that
    exception reaches the caller.  1 of 3 is 33.33 percent, 2 of 3 is 66.67
    percent and 23 of 160 is 14.37 percent. *)
Theorem C7_missing_percentage (missing_data es_count : Z) :
  (ClimateStats.percentage_of missing_data es_count
   = ([], Raise ZeroDivisionError) <-> es_count = 0)
  /\ (es_count <> 0 -> Z.abs missing_data < 2 ^ 63 ->
      let ratio := nearest64 (inject_Z missing_data / inject_Z es_count) in
      ClimateStats.percentage_of missing_data es_count
      = ([], Return (round2 (float_mul_int ratio 100)))
      /\ rounded_to_2_decimals (float_mul_int ratio 100)
           (round2 (float_mul_int ratio 100)))
  /\ (es_count <> 0 ->
      is_binary64 (inject_Z missing_data / inject_Z es_count) = true ->
      is_binary64 (inject_Z missing_data / inject_Z es_count * 100) = true ->
      ClimateStats.percentage_of missing_data es_count
      = ([], Return (round2 (100 * inject_Z missing_data / inject_Z es_count))))
  /\ (forall index calculations property es_hits threshold option,
        ClimateStats.climate_stats index calculations property es_hits 0
          threshold option
        = ([], Raise ZeroDivisionError))
  /\ ClimateStats.percentage_of 1 3 = ([], Return (3333 # 100)%Q)
  /\ ClimateStats.percentage_of 2 3 = ([], Return (6667 # 100)%Q)
  /\ ClimateStats.percentage_of 23 160 = ([], Return (1437 # 100)%Q).
Proof.
  split; [|split; [|split; [|split; [|split; [|split]]]]];
    [| | | |vm_compute; reflexivity..].
  - split.
    + intros H. destruct (Z.eq_dec es_count 0) as [E | E]; [exact E|].
      rewrite (percentage_of_nonzero _ _ E) in H. discriminate H.
    + intros ->. apply percentage_of_zero.
  - intros H _. cbv zeta. split; [|apply round2_rounded].
    apply (percentage_of_nonzero _ _ H).
  - intros H Hq Hp.
    rewrite (percentage_of_nonzero _ _ H). f_equal. f_equal.
    apply round2_comp.
    assert (N : ~ (inject_Z es_count == 0)%Q).
    { intros E. apply H. apply inject_Z_injective. exact E. }
    destruct (is_binary64_exact _ Hq) as [r [_ [-> R]]].
    change 100%Q with (inject_Z 100) in Hp.
    rewrite float_mul_int_exact.
    + rewrite R. change (inject_Z 100) with 100%Q. field. exact N.
    + vm_compute. reflexivity.
    + destruct (is_binary64_exact _ Hp) as [r' [F _]].
      unfold is_binary64.
      rewrite (to_float64_comp (r * inject_Z 100)
                 (inject_Z missing_data / inject_Z es_count * inject_Z 100))
        by (rewrite R; reflexivity).
      unfold is_binary64 in Hp. destruct (to_float64 _); [|discriminate..].
      apply Qeq_bool_iff. apply Qeq_bool_iff in Hp. rewrite Hp, R. reflexivity.
  - intros. unfold ClimateStats.climate_stats.
    rewrite calculate_missing_data_eval, bind_ret_l, percentage_of_zero.
    reflexivity.
Qed.

(** 7 missing records of 16. *)
Lemma C7_missing_percentage_witness :
  ClimateStats.percentage_of 7 16 = ([], Return (4375 # 100)%Q).
Proof.
  refine (proj1 (proj2 (proj2 (C7_missing_percentage 7 16))) _ _ _);
    [discriminate | vm_compute; reflexivity | vm_compute; reflexivity].
Defined.

(** The claim as stated fails: for 23 missing records of 160 the code
    returns 14.37, and round(100 * 23 / 160, 2) is 14.38 (100 * 23 / 160 is
    14.375, while the float 23 / 160 times 100 is just below it). *)
Lemma C7_percentage_counterexample :
  ClimateStats.percentage_of 23 160 = ([], Return (1437 # 100)%Q)
  /\ round2 (100 * inject_Z 23 / inject_Z 160) = (1438 # 100)%Q
  /\ round2 (nearest64 (100 * inject_Z 23 / inject_Z 160)) = (1438 # 100)%Q
  /\ ClimateStats.percentage_of 23 160
     <> ([], Return (round2 (100 * inject_Z 23 / inject_Z 160))).
Proof.
  split; [vm_compute; reflexivity|]. split; [vm_compute; reflexivity|].
  split; [vm_compute; reflexivity|].
  vm_compute. discriminate.
Qed.

(** C3 fails on the code: whenever the search reports at least one match,
    the pipeline hands the integer [missing_days] to
    calculate_consecutive_missing_days, whose loop cannot iterate over it;
    TypeError is raised and no run length reaches the classification.  The
    scan of the value sequence itself would have returned. *)
Theorem C3_run_scan_is_given_the_count
    (index : string) (calculations : list string) (property : string)
    (es_hits : list ClimateStats.hit) (es_count : Z) (threshold : Q)
    (option : pyval) :
  es_count <> 0 ->
  ClimateStats.climate_stats index calculations property es_hits es_count
    threshold option
  = ([scan_type_error], Raise TypeError)
  /\ TestScript.script es_hits es_count = ([scan_type_error], Raise TypeError)
  /\ ClimateStats.calculate_consecutive_missing_days
       (DList (map ClimateStats.field_value es_hits))
     = ([], Return (Z.of_nat (list_max
                      (missing_runs (map ClimateStats.field_value es_hits))))).
Proof.
  intros H. split; [|split].
  - unfold ClimateStats.climate_stats.
    rewrite calculate_missing_data_eval, bind_ret_l.
    rewrite (percentage_of_nonzero _ _ H), bind_ret_l.
    rewrite missing_days_eval, bind_ret_l, consecutive_of_int.
    reflexivity.
  - unfold TestScript.script, TestScript.calculate_missing_data,
      TestScript.calculate_missing_days,
      TestScript.calculate_consecutive_missing_days.
    rewrite calculate_missing_data_eval, bind_ret_l.
    rewrite (percentage_of_nonzero _ _ H), bind_ret_l.
    rewrite missing_days_eval, bind_ret_l, consecutive_of_int.
    reflexivity.
  - apply consecutive_eval.
Qed.

(** Two fetched records, one of them without a reading, policy "WMO". *)
Lemma C3_run_scan_witness :
  ClimateStats.climate_stats "climate_public_daily_data" ["max"%string]
    "TOTAL_PRECIPITATION"
    [ {| ClimateStats.field_value := None;
         ClimateStats.STATION_NAME := "A"; ClimateStats.STN_ID := 1;
         ClimateStats.coordinates := [0%Q; 0%Q] |};
      {| ClimateStats.field_value := Some 1%Q;
         ClimateStats.STATION_NAME := "A"; ClimateStats.STN_ID := 1;
         ClimateStats.coordinates := [0%Q; 0%Q] |} ]
    2 0 (PyStr "WMO")
  = ([scan_type_error], Raise TypeError).
Proof.
  refine (proj1 (C3_run_scan_is_given_the_count _ _ _ _ 2 _ _ _)).
  discriminate.
Defined.

(** *** calculate_statistics *)




Lemma count_if_fold (p : Q -> bool) (xs : list Q) (a : Z) :
  fold_left (fun n value => if p value then n + 1 else n) xs a
  = a + how_many p xs.
Proof.
  unfold how_many. revert a. induction xs as [|x xs IH]; intros a; simpl.
  - lia.
  - rewrite IH. destruct (p x); simpl; lia.
Qed.

Lemma count_if_how_many (p : Q -> bool) (xs : list Q) :
  ClimateStats.count_if p xs = how_many p xs.
Proof. unfold ClimateStats.count_if. rewrite count_if_fold. lia. Qed.



Lemma not_none_all_missing (values : list (option Q)) :
  ClimateStats.not_none values = [] <-> Forall (fun v => v = None) values.
Proof.
  induction values as [|[v|] values IH]; simpl.
  - split; auto.
  - split; [discriminate|]. intros H. inversion H. discriminate.
  - rewrite IH. split; intros H.
    + constructor; auto.
    + inversion H; assumption.
Qed.




(** C5: when the sequence holds no reading (all its entries are None, or it
    is empty), calculate_statistics reports total 0 and None for the mean,
    the max, the min and the three counts, whatever was requested. *)
Theorem C5_statistics_without_readings (calculations : list string)
    (values : list (option Q)) (threshold : Q) :
  ClimateStats.not_none values = [] ->
  ClimateStats.calculate_statistics calculations values threshold
  = {| ClimateStats.st_total := 0;
       ClimateStats.st_mean := None;
       ClimateStats.st_max := None;
       ClimateStats.st_min := None;
       ClimateStats.st_threshold := threshold;
       ClimateStats.st_count_above := None;
       ClimateStats.st_count_below := None;
       ClimateStats.st_count_equal := None |}
  /\ Forall (fun v => v = None) values.
Proof.
  intros H. split; [|apply not_none_all_missing, H].
  unfold ClimateStats.calculate_statistics. rewrite H. reflexivity.
Qed.

Lemma C5_statistics_witness :
  ClimateStats.calculate_statistics
    ["mean"; "max"; "min"; "count above threshold";
     "count below threshold"; "count equal threshold"]%string
    [None; None; None] 2%Q
  = {| ClimateStats.st_total := 0;
       ClimateStats.st_mean := None;
       ClimateStats.st_max := None;
       ClimateStats.st_min := None;
       ClimateStats.st_threshold := 2%Q;
       ClimateStats.st_count_above := None;
       ClimateStats.st_count_below := None;
       ClimateStats.st_count_equal := None |}.
Proof.
  refine (proj1 (C5_statistics_without_readings _ [None; None; None] 2%Q _)).
  reflexivity.
Defined.

(** *** Station deduplication *)

Section Dedup.

Variable A : Type.
Variable eqb : A -> A -> bool.
Hypothesis eqb_trans :
  forall a b c, eqb a b = true -> eqb b c = true -> eqb a c = true.

Lemma member_app (x : A) (l1 l2 : list A) :
  is_member eqb x (l1 ++ l2) = is_member eqb x l1 || is_member eqb x l2.
Proof. apply existsb_app. Qed.

Lemma member_trans (x0 x : A) (l : list A) :
  is_member eqb x0 l = true -> eqb x0 x = true -> is_member eqb x l = true.
Proof.
  unfold is_member. rewrite !existsb_exists.
  intros (y & Hy & E) Hx. exists y. split; [exact Hy|].
  exact (eqb_trans _ _ _ E Hx).
Qed.

(** One round of the loop keeps the accumulator and the scanned prefix
    holding the same elements. *)
Lemma dedup_step_members (acc before : list A) (x0 : A) :
  (forall x, is_member eqb x acc = is_member eqb x before) ->
  forall x, is_member eqb x (ClimateStats.dedup_step eqb acc x0)
            = is_member eqb x (before ++ [x0]).
Proof.
  intros P x. unfold ClimateStats.dedup_step. fold (is_member eqb x0 acc).
  rewrite member_app. simpl. rewrite Bool.orb_false_r.
  destruct (is_member eqb x0 acc) eqn:Hin.
  - destruct (eqb x0 x) eqn:E.
    + rewrite (member_trans x0 x acc Hin E). symmetry. apply Bool.orb_true_r.
    + rewrite Bool.orb_false_r. apply P.
  - rewrite member_app. simpl. rewrite Bool.orb_false_r, P. reflexivity.
Qed.

Lemma dedup_fold (l acc before : list A) :
  (forall x, is_member eqb x acc = is_member eqb x before) ->
  fold_left (ClimateStats.dedup_step eqb) l acc
  = acc ++ first_occurrences eqb before l
  /\ (forall x, is_member eqb x (fold_left (ClimateStats.dedup_step eqb) l acc)
                = is_member eqb x (before ++ l)).
Proof.
  revert acc before. induction l as [|x0 l IH]; intros acc before P.
  - simpl. rewrite !app_nil_r. split; [reflexivity | exact P].
  - simpl.
    destruct (IH _ _ (dedup_step_members acc before x0 P)) as [E M].
    rewrite E. split.
    + unfold ClimateStats.dedup_step. fold (is_member eqb x0 acc) (is_member eqb x0 before).
      rewrite <- (P x0). destruct (is_member eqb x0 acc); simpl.
      * reflexivity.
      * rewrite <- app_assoc. reflexivity.
    + intros x. rewrite <- E, M, <- app_assoc. reflexivity.
Qed.

Lemma distinct_snoc (acc : list A) (x0 : A) :
  pairwise_distinct eqb acc -> is_member eqb x0 acc = false ->
  pairwise_distinct eqb (acc ++ [x0]).
Proof.
  unfold is_member. induction acc as [|a acc IH]; simpl.
  - intros _ _. split; [reflexivity | exact I].
  - intros [Ha Hd] Hm. apply Bool.orb_false_iff in Hm. destruct Hm as [E Hm].
    split; [|apply IH; assumption].
    rewrite existsb_app, Ha. simpl. rewrite E. reflexivity.
Qed.

Lemma dedup_fold_distinct (l acc : list A) :
  pairwise_distinct eqb acc ->
  pairwise_distinct eqb (fold_left (ClimateStats.dedup_step eqb) l acc).
Proof.
  revert acc. induction l as [|x0 l IH]; intros acc H; simpl; [exact H|].
  apply IH. unfold ClimateStats.dedup_step. fold (is_member eqb x0 acc).
  destruct (is_member eqb x0 acc) eqn:Hin; [exact H|].
  apply distinct_snoc; assumption.
Qed.

(** The loop returns the first occurrences in input order; its result has
    no two equal elements and holds exactly the elements of the input. *)
Lemma dedup_spec (l : list A) :
  ClimateStats.dedup eqb l = first_occurrences eqb [] l
  /\ pairwise_distinct eqb (ClimateStats.dedup eqb l)
  /\ (forall x, existsb (fun y => eqb y x) (ClimateStats.dedup eqb l)
                = existsb (fun y => eqb y x) l).
Proof.
  unfold ClimateStats.dedup.
  destruct (dedup_fold l [] [] (fun x => eq_refl)) as [E M].
  split; [exact E|]. split; [|exact M].
  apply dedup_fold_distinct. exact I.
Qed.

End Dedup.

Lemma coords_eqb_Forall2 (a b : list Q) :
  ClimateStats.coords_eqb a b = true <-> Forall2 Qeq a b.
Proof.
  revert b. induction a as [|x a IH]; intros [|y b]; simpl.
  - split; auto.
  - split; [discriminate | intros H; inversion H].
  - split; [discriminate | intros H; inversion H].
  - rewrite Bool.andb_true_iff, Qeq_bool_iff, IH. split.
    + intros [H1 H2]. constructor; assumption.
    + intros H. inversion H. split; assumption.
Qed.

(** [==] on station tuples is equality of the names, of the ids and, entry by
    entry, of the coordinates. *)
Lemma station_eqb_structural (n1 n2 : string) (i1 i2 : Z) (c1 c2 : list Q) :
  ClimateStats.station_eqb (n1, i1, c1) (n2, i2, c2) = true
  <-> n1 = n2 /\ i1 = i2 /\ Forall2 Qeq c1 c2.
Proof.
  unfold ClimateStats.station_eqb.
  rewrite !Bool.andb_true_iff, String.eqb_eq, Z.eqb_eq, coords_eqb_Forall2.
  tauto.
Qed.

Lemma Forall2_Qeq_trans (a b c : list Q) :
  Forall2 Qeq a b -> Forall2 Qeq b c -> Forall2 Qeq a c.
Proof.
  intros H. revert c. induction H as [|x y a b E H IH]; intros c Hc.
  - inversion Hc. constructor.
  - inversion Hc as [|y' z b' c' E' H']; subst. constructor.
    + exact (Qeq_trans _ _ _ E E').
    + apply IH, H'.
Qed.

Lemma station_eqb_trans (a b c : ClimateStats.station_info) :
  ClimateStats.station_eqb a b = true -> ClimateStats.station_eqb b c = true ->
  ClimateStats.station_eqb a c = true.
Proof.
  destruct a as [[n1 i1] c1], b as [[n2 i2] c2], c as [[n3 i3] c3].
  rewrite !station_eqb_structural.
  intros (-> & -> & H1) (-> & -> & H2). repeat split.
  exact (Forall2_Qeq_trans _ _ _ H1 H2).
Qed.

(** C9: the station loop keeps, in input order, each tuple that equals no
    tuple before it: the result has no two equal tuples and holds exactly the
    tuples of the input, where two tuples are equal when their names, their
    ids and their coordinates are.  [(A,1,[0,0]), (B,2,[1,1]), (A,1,[0,0])]
    gives [(A,1,[0,0]), (B,2,[1,1])], of length 2. *)
Theorem C9_station_deduplication (tuples : list ClimateStats.station_info) :
  ClimateStats.dedup ClimateStats.station_eqb tuples
  = first_occurrences ClimateStats.station_eqb [] tuples
  /\ pairwise_distinct ClimateStats.station_eqb
       (ClimateStats.dedup ClimateStats.station_eqb tuples)
  /\ (forall t,
        existsb (fun seen => ClimateStats.station_eqb seen t)
          (ClimateStats.dedup ClimateStats.station_eqb tuples)
        = existsb (fun seen => ClimateStats.station_eqb seen t) tuples)
  /\ (forall n1 n2 i1 i2 c1 c2,
        ClimateStats.station_eqb (n1, i1, c1) (n2, i2, c2) = true
        <-> n1 = n2 /\ i1 = i2 /\ Forall2 Qeq c1 c2)
  /\ ClimateStats.dedup ClimateStats.station_eqb
       [("A"%string, 1, [0; 0]%Q); ("B"%string, 2, [1; 1]%Q);
        ("A"%string, 1, [0; 0]%Q)]
     = [("A"%string, 1, [0; 0]%Q); ("B"%string, 2, [1; 1]%Q)]
  /\ (forall es_hits,
        ClimateStats.unique_stations_of es_hits
        = ClimateStats.dedup ClimateStats.station_eqb
            (map ClimateStats.station_of es_hits)).
Proof.
  destruct (dedup_spec _ _ station_eqb_trans tuples) as (E & D & M).
  split; [exact E|]. split; [exact D|]. split; [exact M|].
  split; [exact station_eqb_structural|].
  split; reflexivity.
Qed.

(** ** Further properties of the code *)

(** *** The two missing-data counters and the run scan *)

Lemma count_missing_le_length (l : list (option Q)) :
  (count_missing l <= List.length l)%nat.
Proof. unfold count_missing. apply filter_length_le. Qed.

Lemma count_missing_app (a b : list (option Q)) :
  count_missing (a ++ b) = (count_missing a + count_missing b)%nat.
Proof. unfold count_missing. rewrite filter_app, length_app. reflexivity. Qed.

Lemma count_missing_zero_iff (l : list (option Q)) :
  count_missing l = 0%nat <-> Forall (fun v => v <> None) l.
Proof.
  split; [|apply count_missing_all_readings].
  unfold count_missing. induction l as [|[v|] l IH]; simpl; intros H.
  - constructor.
  - constructor; [discriminate | apply IH, H].
  - discriminate.
Qed.

(** X1: calculate_missing_data on the fetched records and
    calculate_missing_days on the list of their values return the same
    number, which lies between 0 and the number of records and is 0 exactly
    when no value is None. *)
Theorem X1_missing_counts_agree (es_hits : list ClimateStats.hit) :
  exists n : Z,
    ClimateStats.calculate_missing_data es_hits = ([], Return n)
    /\ ClimateStats.calculate_missing_days
         (DList (map ClimateStats.field_value es_hits)) = ([], Return n)
    /\ 0 <= n <= Z.of_nat (List.length es_hits)
    /\ (n = 0 <-> Forall (fun h => ClimateStats.field_value h <> None) es_hits).
Proof.
  exists (Z.of_nat (count_missing (map ClimateStats.field_value es_hits))).
  split; [apply calculate_missing_data_eval|].
  split; [apply missing_days_eval|].
  split.
  - pose proof (count_missing_le_length (map ClimateStats.field_value es_hits)) as H.
    rewrite length_map in H. lia.
  - rewrite <- Forall_map with (P := fun v => v <> None).
    rewrite <- count_missing_zero_iff. lia.
Qed.

Lemma longest_from_nil (c : nat) : longest_from c [] = c.
Proof. apply open_run_max. Qed.

Lemma longest_from_reading (c : nat) (v : Q) (l : list (option Q)) :
  longest_from c (Some v :: l) = Nat.max c (longest_from 0 l).
Proof.
  unfold longest_from. simpl. rewrite list_max_app, open_run_max. reflexivity.
Qed.

Lemma longest_from_missing (c : nat) (l : list (option Q)) :
  longest_from c (None :: l) = longest_from (S c) l.
Proof. reflexivity. Qed.

Lemma longest_from_ge (c : nat) (l : list (option Q)) :
  (c <= longest_from c l)%nat.
Proof. apply missing_runs_from_ge. Qed.

Lemma longest_from_mono (l : list (option Q)) (c c' : nat) :
  (c <= c')%nat -> (longest_from c l <= longest_from c' l)%nat.
Proof.
  revert c c'. induction l as [|[v|] l IH]; intros c c' H.
  - rewrite !longest_from_nil. exact H.
  - rewrite !longest_from_reading. lia.
  - rewrite !longest_from_missing. apply IH. lia.
Qed.

Lemma longest_from_shift (l : list (option Q)) (c d : nat) :
  (longest_from (c + d) l <= c + longest_from d l)%nat.
Proof.
  revert d. induction l as [|[v|] l IH]; intros d.
  - rewrite !longest_from_nil. lia.
  - rewrite !longest_from_reading. lia.
  - rewrite !longest_from_missing.
    replace (S (c + d)) with (c + S d)%nat by lia. apply IH.
Qed.

Lemma longest_from_app_left (a b : list (option Q)) (c : nat) :
  (longest_from c a <= longest_from c (a ++ b))%nat.
Proof.
  revert c. induction a as [|[v|] a IH]; intros c; simpl.
  - rewrite longest_from_nil. apply longest_from_ge.
  - rewrite !longest_from_reading. specialize (IH 0%nat). lia.
  - rewrite !longest_from_missing. apply IH.
Qed.

Lemma longest_from_app_right (a b : list (option Q)) (c : nat) :
  (longest_from 0 b <= longest_from c (a ++ b))%nat.
Proof.
  revert c. induction a as [|[v|] a IH]; intros c; simpl.
  - apply longest_from_mono. lia.
  - rewrite longest_from_reading. specialize (IH 0%nat). lia.
  - rewrite longest_from_missing. apply IH.
Qed.

Lemma longest_from_app_upper (a b : list (option Q)) (c : nat) :
  (longest_from c (a ++ b) <= longest_from c a + longest_from 0 b)%nat.
Proof.
  revert c. induction a as [|[v|] a IH]; intros c; simpl.
  - rewrite longest_from_nil.
    pose proof (longest_from_shift b c 0) as H.
    rewrite Nat.add_0_r in H. exact H.
  - rewrite !longest_from_reading. specialize (IH 0%nat). lia.
  - rewrite !longest_from_missing. apply IH.
Qed.

Lemma longest_from_le_count (l : list (option Q)) (c : nat) :
  (longest_from c l <= c + count_missing l)%nat.
Proof.
  revert c. unfold count_missing.
  induction l as [|[v|] l IH]; intros c.
  - rewrite longest_from_nil. lia.
  - rewrite longest_from_reading. simpl. specialize (IH 0%nat). lia.
  - rewrite longest_from_missing. simpl. specialize (IH (S c)). lia.
Qed.

Lemma longest_from_open (c : nat) (l : list (option Q)) :
  longest_from 0 (repeat None c ++ l) = longest_from c l.
Proof.
  unfold longest_from. rewrite runs_extend, Nat.add_0_r. reflexivity.
Qed.

Lemma repeat_snoc_missing (c : nat) (l : list (option Q)) :
  repeat (@None Q) c ++ None :: l = repeat None (S c) ++ l.
Proof.
  change (None :: l) with ([@None Q] ++ l).
  rewrite app_assoc, <- repeat_cons. reflexivity.
Qed.

(** The scan result is the length of a window of missing entries of the
    sequence ... *)
Lemma longest_window_exists (l : list (option Q)) (c : nat) :
  exists p s, repeat None c ++ l = p ++ repeat None (longest_from c l) ++ s.
Proof.
  revert c. induction l as [|[v|] l IH]; intros c.
  - exists [], []. rewrite longest_from_nil. reflexivity.
  - rewrite longest_from_reading.
    destruct (Nat.le_gt_cases (longest_from 0 l) c) as [H | H].
    + exists [], (Some v :: l).
      replace (Nat.max c (longest_from 0 l)) with c by lia. reflexivity.
    + destruct (IH 0%nat) as (p & s & E). simpl in E.
      exists (repeat None c ++ Some v :: p), s.
      replace (Nat.max c (longest_from 0 l)) with (longest_from 0 l) by lia.
      rewrite E at 1. rewrite <- app_assoc. reflexivity.
  - rewrite longest_from_missing, repeat_snoc_missing. apply IH.
Qed.

(** ... and no window of missing entries is longer. *)
Lemma longest_window_bound (l p s : list (option Q)) (k : nat) :
  l = p ++ repeat None k ++ s -> (k <= longest_from 0 l)%nat.
Proof.
  intros ->.
  apply Nat.le_trans with (longest_from 0 (repeat None k ++ s)).
  - rewrite longest_from_open. apply longest_from_ge.
  - apply longest_from_app_right.
Qed.

Lemma rev_repeat_missing (k : nat) : rev (repeat (@None Q) k) = repeat None k.
Proof.
  induction k as [|k IH]; simpl; [reflexivity|].
  rewrite IH. symmetry. apply repeat_cons.
Qed.

Lemma longest_rev_le (l : list (option Q)) :
  (longest_from 0 (rev l) <= longest_from 0 l)%nat.
Proof.
  destruct (longest_window_exists (rev l) 0) as (p & s & E). simpl in E.
  remember (longest_from 0 (rev l)) as K eqn:HK. clear HK.
  apply (longest_window_bound l (rev s) (rev p)).
  apply (f_equal (@rev (option Q))) in E.
  rewrite rev_involutive, !rev_app_distr, rev_repeat_missing, <- app_assoc in E.
  exact E.
Qed.

Lemma consecutive_eval_longest (l : list (option Q)) :
  ClimateStats.calculate_consecutive_missing_days (DList l)
  = ([], Return (Z.of_nat (longest_from 0 l))).
Proof. apply consecutive_eval. Qed.

(** X2: on one sequence the longest run returned by
    calculate_consecutive_missing_days is at most the count returned by
    calculate_missing_days, which is at most the length of the sequence;
    neither is negative. *)
Theorem X2_run_le_count_le_length (l : list (option Q)) :
  exists run md : Z,
    ClimateStats.calculate_consecutive_missing_days (DList l) = ([], Return run)
    /\ ClimateStats.calculate_missing_days (DList l) = ([], Return md)
    /\ 0 <= run <= md /\ md <= Z.of_nat (List.length l).
Proof.
  exists (Z.of_nat (longest_from 0 l)), (Z.of_nat (count_missing l)).
  split; [apply consecutive_eval_longest|].
  split; [apply missing_days_eval|].
  pose proof (longest_from_le_count l 0).
  pose proof (count_missing_le_length l). lia.
Qed.

(** X3: reading the sequence backwards changes neither the longest run nor
    the count of missing entries; other reorderings can change the run
    (None, reading, None has run 1; None, None, reading has run 2). *)
Theorem X3_reversal_keeps_run_and_count (l : list (option Q)) :
  ClimateStats.calculate_consecutive_missing_days (DList (rev l))
  = ClimateStats.calculate_consecutive_missing_days (DList l)
  /\ ClimateStats.calculate_missing_days (DList (rev l))
     = ClimateStats.calculate_missing_days (DList l)
  /\ ClimateStats.calculate_consecutive_missing_days
       (DList [None; Some 1%Q; None]) = ([], Return 1)
  /\ ClimateStats.calculate_consecutive_missing_days
       (DList [None; None; Some 1%Q]) = ([], Return 2).
Proof.
  split; [|split; [|split; reflexivity]].
  - rewrite !consecutive_eval_longest. f_equal. f_equal. f_equal.
    apply Nat.le_antisymm; [apply longest_rev_le|].
    rewrite <- (rev_involutive l) at 1. apply longest_rev_le.
  - rewrite !missing_days_eval. f_equal. f_equal. f_equal.
    unfold count_missing. rewrite filter_rev, length_rev. reflexivity.
Qed.

(** X4: for two sequences put end to end the count of missing entries is
    the sum of the two counts, and the longest run is at least the larger of
    the two longest runs and at most their sum. *)
Theorem X4_concatenation (a b : list (option Q)) :
  exists ra rb rab ma mb : Z,
    ClimateStats.calculate_consecutive_missing_days (DList a) = ([], Return ra)
    /\ ClimateStats.calculate_consecutive_missing_days (DList b) = ([], Return rb)
    /\ ClimateStats.calculate_consecutive_missing_days (DList (a ++ b))
       = ([], Return rab)
    /\ ClimateStats.calculate_missing_days (DList a) = ([], Return ma)
    /\ ClimateStats.calculate_missing_days (DList b) = ([], Return mb)
    /\ ClimateStats.calculate_missing_days (DList (a ++ b))
       = ([], Return (ma + mb))
    /\ Z.max ra rb <= rab <= ra + rb.
Proof.
  exists (Z.of_nat (longest_from 0 a)), (Z.of_nat (longest_from 0 b)),
    (Z.of_nat (longest_from 0 (a ++ b))),
    (Z.of_nat (count_missing a)), (Z.of_nat (count_missing b)).
  rewrite !consecutive_eval_longest, !missing_days_eval, count_missing_app.
  repeat split; try reflexivity.
  - f_equal. f_equal. lia.
  - pose proof (longest_from_app_left a b 0).
    pose proof (longest_from_app_right a b 0). lia.
  - pose proof (longest_from_app_upper a b 0). lia.
Qed.

(** *** Statistics *)

Lemma not_none_length (values : list (option Q)) :
  (List.length (ClimateStats.not_none values) + count_missing values
   = List.length values)%nat.
Proof.
  unfold count_missing. induction values as [|[v|] values IH]; simpl; lia.
Qed.

Lemma statistics_total (calculations : list string)
    (values : list (option Q)) (threshold : Q) :
  ClimateStats.st_total
    (ClimateStats.calculate_statistics calculations values threshold)
  = Z.of_nat (List.length (ClimateStats.not_none values)).
Proof.
  unfold ClimateStats.calculate_statistics.
  destruct (ClimateStats.not_none values); reflexivity.
Qed.

(** X5: the total reported by calculate_statistics and the count returned
    by calculate_missing_days on the same sequence add up to the length of
    the sequence, and the report echoes the threshold. *)
Theorem X5_total_plus_missing (calculations : list string)
    (values : list (option Q)) (threshold : Q) :
  let s := ClimateStats.calculate_statistics calculations values threshold in
  exists md : Z,
    ClimateStats.calculate_missing_days (DList values) = ([], Return md)
    /\ ClimateStats.st_total s + md = Z.of_nat (List.length values)
    /\ 0 <= ClimateStats.st_total s
    /\ ClimateStats.st_threshold s = threshold.
Proof.
  cbv zeta. exists (Z.of_nat (count_missing values)).
  split; [apply missing_days_eval|].
  rewrite statistics_total. pose proof (not_none_length values).
  repeat split; try lia.
  unfold ClimateStats.calculate_statistics.
  destruct (ClimateStats.not_none values); reflexivity.
Qed.

(** X6: calculate_statistics looks at the requested names only through the
    six names it knows: two requests that agree on them give the same
    report, so other names are ignored without error; and a calculation that
    is not requested is reported as None. *)
Theorem X6_only_six_names_matter (c1 c2 : list string)
    (values : list (option Q)) (threshold : Q) :
  (forall name,
     In name ["mean"; "max"; "min"; "count above threshold";
              "count below threshold"; "count equal threshold"]%string ->
     ClimateStats.requested name c1 = ClimateStats.requested name c2) ->
  ClimateStats.calculate_statistics c1 values threshold
  = ClimateStats.calculate_statistics c2 values threshold
  /\ (ClimateStats.requested "mean" c1 = false ->
      ClimateStats.st_mean
        (ClimateStats.calculate_statistics c1 values threshold) = None)
  /\ (ClimateStats.requested "max" c1 = false ->
      ClimateStats.st_max
        (ClimateStats.calculate_statistics c1 values threshold) = None)
  /\ (ClimateStats.requested "min" c1 = false ->
      ClimateStats.st_min
        (ClimateStats.calculate_statistics c1 values threshold) = None)
  /\ (ClimateStats.requested "count above threshold" c1 = false ->
      ClimateStats.st_count_above
        (ClimateStats.calculate_statistics c1 values threshold) = None)
  /\ (ClimateStats.requested "count below threshold" c1 = false ->
      ClimateStats.st_count_below
        (ClimateStats.calculate_statistics c1 values threshold) = None)
  /\ (ClimateStats.requested "count equal threshold" c1 = false ->
      ClimateStats.st_count_equal
        (ClimateStats.calculate_statistics c1 values threshold) = None).
Proof.
  intros H. unfold ClimateStats.calculate_statistics.
  destruct (ClimateStats.not_none values) as [|v vs].
  - repeat split; reflexivity.
  - split.
    + rewrite (H "mean"%string), (H "max"%string), (H "min"%string),
        (H "count above threshold"%string), (H "count below threshold"%string),
        (H "count equal threshold"%string) by (simpl; tauto).
      reflexivity.
    + cbn [ClimateStats.st_mean ClimateStats.st_max ClimateStats.st_min
           ClimateStats.st_count_above ClimateStats.st_count_below
           ClimateStats.st_count_equal].
      repeat split; intros ->; reflexivity.
Qed.

(** The report keys count_above, ... are not request names. *)
Lemma X6_only_six_names_witness :
  ClimateStats.calculate_statistics ["count_above"; "median"]%string
    [Some 1; Some 3]%Q 2%Q
  = ClimateStats.calculate_statistics [] [Some 1; Some 3]%Q 2%Q.
Proof.
  refine (proj1 (X6_only_six_names_matter ["count_above"; "median"]%string []
                   [Some 1; Some 3]%Q 2%Q _)).
  intros name H. simpl in H.
  repeat (destruct H as [<- | H]; [reflexivity|]). destruct H.
Defined.

Lemma trichotomy_counts (threshold : Q) (xs : list Q) :
  how_many (fun v => Qltb threshold v) xs
  + how_many (fun v => Qltb v threshold) xs
  + how_many (fun v => Qeq_bool v threshold) xs
  = Z.of_nat (List.length xs).
Proof.
  unfold how_many. induction xs as [|x xs IH]; [reflexivity|].
  simpl.
  destruct (Qcompare threshold x) eqn:C.
  - assert (E1 : Qltb threshold x = false) by (unfold Qltb; rewrite C; reflexivity).
    apply Qeq_alt in C.
    assert (E2 : Qltb x threshold = false).
    { apply Qltb_ge. rewrite C. apply Qle_refl. }
    assert (E3 : Qeq_bool x threshold = true).
    { apply Qeq_bool_iff. symmetry. exact C. }
    rewrite E1, E2, E3. simpl List.length. lia.
  - assert (E1 : Qltb threshold x = true) by (unfold Qltb; rewrite C; reflexivity).
    apply Qlt_alt in C.
    assert (E2 : Qltb x threshold = false).
    { apply Qltb_ge. apply Qlt_le_weak, C. }
    assert (E3 : Qeq_bool x threshold = false).
    { destruct (Qeq_bool x threshold) eqn:E; [|reflexivity].
      apply Qeq_bool_iff in E. rewrite E in C. exfalso.
      exact (Qlt_irrefl _ C). }
    rewrite E1, E2, E3. simpl List.length. lia.
  - assert (E1 : Qltb threshold x = false) by (unfold Qltb; rewrite C; reflexivity).
    apply Qgt_alt in C.
    assert (E2 : Qltb x threshold = true) by (apply Qltb_lt, C).
    assert (E3 : Qeq_bool x threshold = false).
    { destruct (Qeq_bool x threshold) eqn:E; [|reflexivity].
      apply Qeq_bool_iff in E. rewrite E in C. exfalso.
      exact (Qlt_irrefl _ C). }
    rewrite E1, E2, E3. simpl List.length. lia.
Qed.

(** X7: when the three counts are requested on a sequence with at least one
    reading, every reading is counted exactly once: count_above, count_below
    and count_equal add up to total. *)
Theorem X7_counts_partition_total (calculations : list string)
    (values : list (option Q)) (threshold : Q) :
  ClimateStats.not_none values <> [] ->
  ClimateStats.requested "count above threshold" calculations = true ->
  ClimateStats.requested "count below threshold" calculations = true ->
  ClimateStats.requested "count equal threshold" calculations = true ->
  let s := ClimateStats.calculate_statistics calculations values threshold in
  exists above below equal : Z,
    ClimateStats.st_count_above s = Some above
    /\ ClimateStats.st_count_below s = Some below
    /\ ClimateStats.st_count_equal s = Some equal
    /\ 0 <= above /\ 0 <= below /\ 0 <= equal
    /\ above + below + equal = ClimateStats.st_total s.
Proof.
  intros HV Ha Hb He. cbv zeta. rewrite statistics_total.
  unfold ClimateStats.calculate_statistics.
  destruct (ClimateStats.not_none values) as [|v vs]; [congruence|].
  cbn [ClimateStats.st_count_above ClimateStats.st_count_below
       ClimateStats.st_count_equal].
  rewrite Ha, Hb, He, !count_if_how_many.
  eexists _, _, _. split; [reflexivity|]. split; [reflexivity|].
  split; [reflexivity|].
  pose proof (trichotomy_counts threshold (v :: vs)) as T.
  unfold how_many in *. lia.
Qed.

Lemma X7_counts_partition_witness :
  exists above below equal : Z,
    ClimateStats.st_count_above
      (ClimateStats.calculate_statistics
         ["count above threshold"; "count below threshold";
          "count equal threshold"]%string
         [Some 1; None; Some 2; Some 5]%Q 2%Q) = Some above
    /\ ClimateStats.st_count_below
         (ClimateStats.calculate_statistics
            ["count above threshold"; "count below threshold";
             "count equal threshold"]%string
            [Some 1; None; Some 2; Some 5]%Q 2%Q) = Some below
    /\ ClimateStats.st_count_equal
         (ClimateStats.calculate_statistics
            ["count above threshold"; "count below threshold";
             "count equal threshold"]%string
            [Some 1; None; Some 2; Some 5]%Q 2%Q) = Some equal
    /\ 0 <= above /\ 0 <= below /\ 0 <= equal
    /\ above + below + equal
       = ClimateStats.st_total
           (ClimateStats.calculate_statistics
              ["count above threshold"; "count below threshold";
               "count equal threshold"]%string
              [Some 1; None; Some 2; Some 5]%Q 2%Q).
Proof.
  apply (X7_counts_partition_total
           ["count above threshold"; "count below threshold";
            "count equal threshold"]%string
           [Some 1; None; Some 2; Some 5]%Q 2%Q);
    [discriminate | reflexivity | reflexivity | reflexivity].
Defined.












(** *** The missing-data percentage *)

Lemma round_half_even_integer (n : Z) (q : Q) :
  (q == inject_Z n)%Q -> round_half_even q = n.
Proof.
  intros H. rewrite (round_half_even_comp _ _ H).
  unfold round_half_even. rewrite Qfloor_Z.
  assert (E : (inject_Z n - inject_Z n ?= 1 # 2)%Q = Lt).
  { apply Qlt_alt. setoid_replace (inject_Z n - inject_Z n)%Q with 0%Q by ring.
    reflexivity. }
  rewrite E. reflexivity.
Qed.

Lemma round_half_even_range (lo hi : Z) (q : Q) :
  (inject_Z lo <= q)%Q -> (q <= inject_Z hi)%Q ->
  lo <= round_half_even q <= hi.
Proof.
  intros Hlo Hhi.
  pose proof (round_half_even_near q) as N.
  apply Qabs_Qle_condition in N. destruct N as [N1 N2].
  set (k := round_half_even q) in *.
  split.
  - destruct (Z_lt_le_dec k lo) as [B | B]; [|exact B]. exfalso.
    assert (C : (inject_Z (k + 1) <= inject_Z lo)%Q)
      by (rewrite <- Zle_Qle; lia).
    rewrite inject_Z_plus in C. change (inject_Z 1) with 1%Q in C. lra.
  - destruct (Z_lt_le_dec hi k) as [B | B]; [|exact B]. exfalso.
    assert (C : (inject_Z (hi + 1) <= inject_Z k)%Q)
      by (rewrite <- Zle_Qle; lia).
    rewrite inject_Z_plus in C. change (inject_Z 1) with 1%Q in C. lra.
Qed.

(** A rational of absolute value at most [2 ** k] lies in a binade no higher
    than [k]. *)
Lemma binade_le (q : Q) (k : Z) :
  0 <= k -> (Qabs q <= inject_Z (2 ^ k))%Q -> binade q <= k.
Proof.
  intros Hk B. unfold binade.
  assert (E0 : Z.log2 (Z.abs (Qnum q)) - Z.log2 (Z.pos (Qden q)) <= k).
  { destruct q as [n d]. unfold Qabs, Qle in B.
    cbn [Qnum Qden inject_Z] in *. rewrite Z.mul_1_r in B.
    pose proof (Z.log2_nonneg (Z.pos d)) as Ld.
    destruct (Z.eq_dec (Z.abs n) 0) as [N | N].
    - rewrite N. change (Z.log2 0) with 0. lia.
    - pose proof (Z.log2_le_mono _ _ B) as L.
      rewrite (Z.mul_comm (2 ^ k)), Z.log2_mul_pow2 in L by lia. lia. }
  destruct (Qle_bool _ _); lia.
Qed.

(** Below 128 in absolute value the last place of a binary64 number is a
    binary fraction. *)
Lemma last_place_small (q : Q) : (Qabs q <= 128)%Q -> last_place q <= 0.
Proof.
  intros B. unfold last_place.
  pose proof (binade_le q 7 ltac:(lia) B). lia.
Qed.

(** Rounding to binary64 does not cross an integer, below 128. *)
Lemma nearest64_range (lo hi : Z) (q : Q) :
  (Qabs q <= 128)%Q -> (inject_Z lo <= q)%Q -> (q <= inject_Z hi)%Q ->
  (inject_Z lo <= nearest64 q)%Q /\ (nearest64 q <= inject_Z hi)%Q.
Proof.
  intros B L H. unfold nearest64.
  pose proof (Qred_correct q) as R. set (q' := Qred q) in *.
  destruct (Qeq_bool q' 0) eqn:Z0.
  - apply Qeq_bool_iff in Z0. rewrite Z0 in R. rewrite <- R in L, H.
    split; assumption.
  - rewrite Qred_correct.
    assert (E : last_place q' <= 0)
      by (apply last_place_small; rewrite R; exact B).
    set (e := last_place q') in *.
    set (s := 2 ^ (- e)).
    assert (Sz : 0 < s) by (apply Z.pow_pos_nonneg; lia).
    assert (Sq : (0 < inject_Z s)%Q)
      by (change 0%Q with (inject_Z 0); rewrite <- Zlt_Qlt; exact Sz).
    assert (P : (pow2 e == / inject_Z s)%Q).
    { unfold pow2. destruct (0 <=? e) eqn:C; [|reflexivity].
      apply Z.leb_le in C. assert (e0 : e = 0) by lia.
      unfold s. rewrite e0. reflexivity. }
    assert (X : (q' / pow2 e == q' * inject_Z s)%Q).
    { rewrite P. field. lra. }
    destruct (round_half_even_range (lo * s) (hi * s) (q' / pow2 e)) as [K1 K2].
    { rewrite X, inject_Z_mult, R. apply Qmult_le_compat_r; lra. }
    { rewrite X, inject_Z_mult, R. apply Qmult_le_compat_r; lra. }
    set (k := round_half_even (q' / pow2 e)) in *.
    rewrite P. split.
    + apply Qle_shift_div_l; [exact Sq|].
      rewrite <- inject_Z_mult, <- Zle_Qle. exact K1.
    + apply Qle_shift_div_r; [exact Sq|].
      rewrite <- inject_Z_mult, <- Zle_Qle. exact K2.
Qed.

(** X10: for counts with 0 <= missing <= total and total > 0 the
    percentage is returned and lies between 0 and 100; it is 0 when nothing
    is missing and 100 when everything is. *)
Theorem X10_percentage_range (missing_data es_count : Z) :
  0 <= missing_data <= es_count -> 0 < es_count ->
  exists p : Q,
    ClimateStats.percentage_of missing_data es_count = ([], Return p)
    /\ (0 <= p)%Q /\ (p <= 100)%Q
    /\ (missing_data = 0 -> p = (0 # 100)%Q)
    /\ (missing_data = es_count -> p = (10000 # 100)%Q).
Proof.
  intros Hm Hc.
  rewrite percentage_of_nonzero by lia.
  eexists. split; [reflexivity|].
  assert (Pc : (0 < inject_Z es_count)%Q).
  { change 0%Q with (inject_Z 0). rewrite <- Zlt_Qlt. exact Hc. }
  assert (P0 : (0 <= inject_Z missing_data)%Q).
  { change 0%Q with (inject_Z 0). rewrite <- Zle_Qle. lia. }
  assert (P1 : (inject_Z missing_data <= inject_Z es_count)%Q).
  { rewrite <- Zle_Qle. lia. }
  assert (Q0 : (0 <= inject_Z missing_data / inject_Z es_count)%Q).
  { apply Qle_shift_div_l; [exact Pc|]. lra. }
  assert (Q1 : (inject_Z missing_data / inject_Z es_count <= 1)%Q).
  { apply Qle_shift_div_r; [exact Pc|]. lra. }
  destruct (nearest64_range 0 1 (inject_Z missing_data / inject_Z es_count))
    as [R0 R1].
  { apply Qabs_Qle_condition. split; lra. }
  { exact Q0. }
  { exact Q1. }
  set (ratio := nearest64 (inject_Z missing_data / inject_Z es_count)) in *.
  change (inject_Z 0) with 0%Q in R0. change (inject_Z 1) with 1%Q in R1.
  unfold float_mul_int.
  replace (nearest64 (inject_Z 100)) with 100%Q by (vm_compute; reflexivity).
  destruct (nearest64_range 0 100 (ratio * 100)) as [T0 T1].
  { apply Qabs_Qle_condition. split; lra. }
  { change (inject_Z 0) with 0%Q. lra. }
  { change (inject_Z 100) with 100%Q. lra. }
  change (inject_Z 0) with 0%Q in T0. change (inject_Z 100) with 100%Q in T1.
  set (x := (nearest64 (ratio * 100) * 100)%Q).
  assert (X0 : (inject_Z 0 <= x)%Q).
  { unfold x. change (inject_Z 0) with 0%Q. lra. }
  assert (X1 : (x <= inject_Z 10000)%Q).
  { unfold x. change (inject_Z 10000) with 10000%Q. lra. }
  destruct (round_half_even_range 0 10000 x X0 X1) as [K0 K1].
  unfold round2. fold x.
  split; [|split; [|split]].
  - unfold Qle. simpl. lia.
  - unfold Qle. simpl. lia.
  - intros E. f_equal. unfold x, ratio.
    rewrite (nearest64_comp (inject_Z missing_data / inject_Z es_count) 0).
    + vm_compute. reflexivity.
    + rewrite E. change (inject_Z 0) with 0%Q. field. lra.
  - intros E. f_equal. unfold x, ratio.
    rewrite (nearest64_comp (inject_Z missing_data / inject_Z es_count) 1).
    + vm_compute. reflexivity.
    + rewrite E. field. lra.
Qed.

Lemma X10_percentage_range_witness :
  exists p : Q,
    ClimateStats.percentage_of 1 3 = ([], Return p)
    /\ (0 <= p)%Q /\ (p <= 100)%Q
    /\ (1 = 0 -> p = (0 # 100)%Q)
    /\ (1 = 3 -> p = (10000 # 100)%Q).
Proof.
  apply (X10_percentage_range 1 3); lia.
Defined.

(** *** check_missing_data_options, all policies *)

Lemma py_eq_number (opt : pyval) (q : Q) (P : Z) :
  as_number opt = Some q -> py_eq opt (PyInt P) = Qeq_bool q (inject_Z P).
Proof.
  destruct opt as [|n|p|s]; simpl; try discriminate; intros [= <-].
  - destruct (Z.eqb_spec n P) as [-> | N].
    + symmetry. apply Qeq_bool_iff. reflexivity.
    + destruct (Qeq_bool (inject_Z n) (inject_Z P)) eqn:E; [|reflexivity].
      apply Qeq_bool_iff in E.
      exfalso. exact (N (proj1 (inject_Z_injective n P) E)).
  - reflexivity.
Qed.

Lemma number_not_none_nor_text (opt : pyval) (q : Q) (s : string) :
  as_number opt = Some q ->
  py_eq opt PyNone = false /\ py_eq opt (PyStr s) = false.
Proof. destruct opt; simpl; try discriminate; auto. Qed.

Lemma Qeq_bool_two_thresholds (q : Q) (a b : Z) :
  a <> b -> Qeq_bool q (inject_Z a) = true -> Qeq_bool q (inject_Z b) = false.
Proof.
  intros N Ha. destruct (Qeq_bool q (inject_Z b)) eqn:Hb; [|reflexivity].
  apply Qeq_bool_iff in Ha, Hb. rewrite Ha in Hb.
  exfalso. exact (N (proj1 (inject_Z_injective a b) Hb)).
Qed.

(** test.py on a numeric policy. *)
Lemma test_py_number_policy (opt : pyval) (q pct : Q) (md run : Z) :
  as_number opt = Some q ->
  TestScript.check_missing_data_options opt pct md run
  = if Qeq_bool q (inject_Z 5) || Qeq_bool q (inject_Z 10)
       || Qeq_bool q (inject_Z 15)
    then ([], Return (if Qltb q pct then filtered_message pct opt
                      else status_OK))
    else ([not_acceptable_message opt
             (UnboundLocalError "missing_data_option_status")],
          Raise (UnboundLocalError "missing_data_option_status")).
Proof.
  intros H. unfold TestScript.check_missing_data_options.
  destruct (number_not_none_nor_text opt q "WMO" H) as [E0 EW].
  rewrite E0, EW, !(py_eq_number opt q _ H).
  unfold TestScript.percentage_branch, float_gt. rewrite H.
  destruct (Qeq_bool q (inject_Z 5)); simpl;
    [destruct (Qltb q pct); reflexivity|].
  destruct (Qeq_bool q (inject_Z 10)); simpl;
    [destruct (Qltb q pct); reflexivity|].
  destruct (Qeq_bool q (inject_Z 15)); simpl;
    [destruct (Qltb q pct); reflexivity|].
  reflexivity.
Qed.

(** climate_stats.py on a numeric policy. *)
Lemma climate_stats_number_policy (opt : pyval) (q pct : Q) (md run : Z) :
  as_number opt = Some q ->
  ClimateStats.check_missing_data_options opt pct md run
  = if Qeq_bool q (inject_Z 5) || Qeq_bool q (inject_Z 10)
       || Qeq_bool q (inject_Z 15)
    then (if Qltb q pct
          then ([not_acceptable_message opt
                   (NameError "percentage_missing_data")],
                Raise (NameError "percentage_missing_data"))
          else ([], Return status_OK))
    else ([not_acceptable_message opt
             (UnboundLocalError "missing_data_option_status")],
          Raise (UnboundLocalError "missing_data_option_status")).
Proof.
  intros H. unfold ClimateStats.check_missing_data_options.
  destruct (number_not_none_nor_text opt q "WMO" H) as [E0 EW].
  rewrite E0, EW, !(py_eq_number opt q _ H).
  unfold ClimateStats.percentage_branch, float_gt. rewrite H.
  destruct (Qeq_bool q (inject_Z 5)); simpl;
    [destruct (Qltb q pct); reflexivity|].
  destruct (Qeq_bool q (inject_Z 10)); simpl;
    [destruct (Qltb q pct); reflexivity|].
  destruct (Qeq_bool q (inject_Z 15)); simpl;
    [destruct (Qltb q pct); reflexivity|].
  reflexivity.
Qed.

Lemma policy_known_number (opt : pyval) (q : Q) :
  as_number opt = Some q ->
  policy_known opt
  = Qeq_bool q (inject_Z 5) || Qeq_bool q (inject_Z 10)
    || Qeq_bool q (inject_Z 15).
Proof.
  intros H. unfold policy_known.
  destruct (number_not_none_nor_text opt q "WMO" H) as [E0 EW].
  rewrite E0, EW, !(py_eq_number opt q _ H).
  rewrite Bool.orb_false_r. reflexivity.
Qed.

(** Both files on a policy that is a text. *)
Lemma text_policy (s : string) (pct : Q) (md run : Z) :
  String.eqb s "WMO" = false ->
  ClimateStats.check_missing_data_options (PyStr s) pct md run
  = ([not_acceptable_message (PyStr s)
        (UnboundLocalError "missing_data_option_status")],
     Raise (UnboundLocalError "missing_data_option_status"))
  /\ TestScript.check_missing_data_options (PyStr s) pct md run
     = ([not_acceptable_message (PyStr s)
           (UnboundLocalError "missing_data_option_status")],
        Raise (UnboundLocalError "missing_data_option_status")).
Proof.
  intros H.
  unfold ClimateStats.check_missing_data_options,
    TestScript.check_missing_data_options.
  simpl. rewrite H. split; reflexivity.
Qed.

(** X11: in test.py check_missing_data_options returns exactly when the
    policy equals one of None, 5, 10, 15 and "WMO" (as Python compares, so
    5.0 counts as 5); it then prints nothing and its status is "None", "OK",
    the WMO message or the filtered message carrying the percentage and the
    policy as given.  For every other policy it raises. *)
Theorem X11_test_py_returns_iff_policy_known (opt : pyval) (pct : Q)
    (md run : Z) :
  (policy_known opt = true ->
   exists s,
     TestScript.check_missing_data_options opt pct md run = ([], Return s)
     /\ (s = status_None \/ s = status_OK \/ s = status_WMO
         \/ s = filtered_message pct opt))
  /\ (policy_known opt = false ->
      outcome (TestScript.check_missing_data_options opt pct md run)
      = Raise (UnboundLocalError "missing_data_option_status")).
Proof.
  destruct (as_number opt) as [q|] eqn:N.
  - rewrite (policy_known_number opt q N), (test_py_number_policy opt q _ _ _ N).
    destruct (Qeq_bool q (inject_Z 5) || Qeq_bool q (inject_Z 10)
              || Qeq_bool q (inject_Z 15)).
    + split; [|discriminate]. intros _.
      destruct (Qltb q pct); eexists; (split; [reflexivity|]); tauto.
    + split; [discriminate|]. reflexivity.
  - destruct opt as [|n|p|s]; try discriminate N.
    + split; [|discriminate]. intros _. exists status_None.
      split; [reflexivity | tauto].
    + destruct (String.eqb s "WMO") eqn:W.
      * apply String.eqb_eq in W. subst s.
        split; [|discriminate]. intros _.
        rewrite wmo_branch_same, wmo_branch_eval.
        destruct ((md =? 0) || (run =? 0));
          [|destruct ((md >=? 11) || (run >=? 5))];
          eexists; (split; [reflexivity|]); tauto.
      * split.
        -- unfold policy_known. simpl. rewrite W. discriminate.
        -- intros _. rewrite (proj2 (text_policy s pct md run W)). reflexivity.
Qed.

(** X12: in climate_stats.py check_missing_data_options never returns the
    filtered message: whenever it returns, the status is "None", "OK" or the
    WMO message.  It raises NameError exactly when the policy equals 5, 10
    or 15 and the percentage is above it, and every raised exception has
    been printed by the handler first. *)
Theorem X12_climate_stats_never_returns_filtered (opt : pyval) (pct : Q)
    (md run : Z) :
  let r := ClimateStats.check_missing_data_options opt pct md run in
  (forall s, outcome r = Return s ->
             r = ([], Return s)
             /\ (s = status_None \/ s = status_OK \/ s = status_WMO))
  /\ (forall e, outcome r = Raise e ->
                r = ([not_acceptable_message opt e], Raise e))
  /\ (outcome r = Raise (NameError "percentage_missing_data")
      <-> exists P, In P [5; 10; 15] /\ py_eq opt (PyInt P) = true
                    /\ (inject_Z P < pct)%Q).
Proof.
  cbv zeta. destruct (as_number opt) as [q|] eqn:N.
  - rewrite (climate_stats_number_policy opt q _ _ _ N).
    assert (G : forall P, In P [5; 10; 15] ->
                  Qeq_bool q (inject_Z P) = true ->
                  Qeq_bool q (inject_Z 5) || Qeq_bool q (inject_Z 10)
                  || Qeq_bool q (inject_Z 15) = true).
    { intros P HP E. policy_cases HP; rewrite E;
        rewrite ?Bool.orb_true_r; reflexivity. }
    destruct (Qeq_bool q (inject_Z 5) || Qeq_bool q (inject_Z 10)
              || Qeq_bool q (inject_Z 15)) eqn:K.
    + destruct (Qltb q pct) eqn:L; simpl.
      * split; [intros s H; discriminate H|].
        split; [intros e [= <-]; reflexivity|].
        split; [intros _|reflexivity].
        apply Qltb_lt in L.
        apply Bool.orb_true_iff in K. destruct K as [K | K];
          [apply Bool.orb_true_iff in K; destruct K as [K | K]|].
        -- exists 5. rewrite (py_eq_number opt q 5 N).
           repeat split; [simpl; tauto | exact K |].
           apply Qeq_bool_iff in K. rewrite <- K. exact L.
        -- exists 10. rewrite (py_eq_number opt q 10 N).
           repeat split; [simpl; tauto | exact K |].
           apply Qeq_bool_iff in K. rewrite <- K. exact L.
        -- exists 15. rewrite (py_eq_number opt q 15 N).
           repeat split; [simpl; tauto | exact K |].
           apply Qeq_bool_iff in K. rewrite <- K. exact L.
      * split; [intros s [= <-]; split; [reflexivity | tauto]|].
        split; [intros e H; discriminate H|].
        split; [intros H; discriminate H|].
        intros (P & HP & E & Hlt). exfalso.
        rewrite (py_eq_number opt q P N) in E. apply Qeq_bool_iff in E.
        apply Qltb_ge in L. rewrite <- E in Hlt.
        exact (Qlt_not_le _ _ Hlt L).
    + simpl. split; [intros s H; discriminate H|].
      split; [intros e [= <-]; reflexivity|].
      split; [intros H; discriminate H|].
      intros (P & HP & E & _). exfalso.
      rewrite (py_eq_number opt q P N) in E.
      discriminate (G P HP E).
  - assert (NP : forall P, py_eq opt (PyInt P) = false)
      by (intros P; destruct opt; try discriminate N; reflexivity).
    assert (NE : ~ exists P, In P [5; 10; 15] /\ py_eq opt (PyInt P) = true
                             /\ (inject_Z P < pct)%Q).
    { intros (P & _ & E & _). rewrite NP in E. discriminate E. }
    destruct opt as [|n|p|s]; try discriminate N.
    + simpl. split; [intros s [= <-]; split; [reflexivity | tauto]|].
      split; [intros e H; discriminate H|].
      split; [intros H; discriminate H | intros H; destruct (NE H)].
    + destruct (String.eqb s "WMO") eqn:W.
      * apply String.eqb_eq in W. subst s. rewrite wmo_branch_eval. simpl.
        split.
        { intros s [= <-]. split; [reflexivity|].
          destruct ((md =? 0) || (run =? 0));
            [|destruct ((md >=? 11) || (run >=? 5))]; tauto. }
        split; [intros e H; discriminate H|].
        split; [intros H; discriminate H | intros H; destruct (NE H)].
      * rewrite (proj1 (text_policy s pct md run W)). simpl.
        split; [intros s0 H; discriminate H|].
        split; [intros e [= <-]; reflexivity|].
        split; [intros H; discriminate H | intros H; destruct (NE H)].
Qed.

(** X13: less missing data never turns an accepted result into a rejected
    one.  Under a percentage policy, if a percentage is accepted ("OK") then
    every smaller percentage is, in both files; under "WMO", if a count and a
    run are accepted then so are every smaller count and run that are not
    negative. *)
Theorem X13_less_missing_stays_OK (P : Z) (pct pct' : Q)
    (md md' run run' : Z) :
  In P [5; 10; 15] -> (pct <= pct')%Q ->
  0 <= md <= md' -> 0 <= run <= run' ->
  (TestScript.check_missing_data_options (PyInt P) pct' md' run'
   = ([], Return status_OK) ->
   TestScript.check_missing_data_options (PyInt P) pct md run
   = ([], Return status_OK))
  /\ (ClimateStats.check_missing_data_options (PyInt P) pct' md' run'
      = ([], Return status_OK) ->
      ClimateStats.check_missing_data_options (PyInt P) pct md run
      = ([], Return status_OK))
  /\ (ClimateStats.check_missing_data_options (PyStr "WMO") pct' md' run'
      = ([], Return status_OK) ->
      ClimateStats.check_missing_data_options (PyStr "WMO") pct md run
      = ([], Return status_OK)).
Proof.
  intros HP Hpct Hmd Hrun.
  assert (L : Qle_bool pct' (inject_Z P) = true ->
              Qle_bool pct (inject_Z P) = true).
  { intros H. apply Qle_bool_iff. apply Qle_bool_iff in H.
    exact (Qle_trans _ _ _ Hpct H). }
  split; [|split].
  - rewrite !(test_py_percentage_policy P) by exact HP.
    destruct (Qle_bool pct' (inject_Z P)); [|discriminate].
    rewrite (L eq_refl). reflexivity.
  - rewrite !(climate_stats_percentage_policy P) by exact HP.
    destruct (Qle_bool pct' (inject_Z P)); [|discriminate].
    rewrite (L eq_refl). reflexivity.
  - rewrite !wmo_branch_eval. intros H.
    destruct ((md' =? 0) || (run' =? 0)) eqn:Z'.
    + assert (E : (md =? 0) || (run =? 0) = true).
      { apply Bool.orb_true_iff in Z'. apply Bool.orb_true_iff.
        rewrite !Z.eqb_eq in *. lia. }
      rewrite E. reflexivity.
    + destruct ((md' >=? 11) || (run' >=? 5)) eqn:T'; [discriminate H|].
      apply Bool.orb_false_iff in T'.
      rewrite !Z.geb_leb, !Z.leb_gt in T'.
      assert (E : (md >=? 11) || (run >=? 5) = false).
      { apply Bool.orb_false_iff. rewrite !Z.geb_leb, !Z.leb_gt. lia. }
      rewrite E. destruct ((md =? 0) || (run =? 0)); reflexivity.
Qed.

Lemma X13_less_missing_witness :
  ClimateStats.check_missing_data_options (PyStr "WMO") 3 2 1
  = ([], Return status_OK).
Proof.
  refine (proj2 (proj2 (X13_less_missing_stays_OK 10 3 12 2 10 1 4 _ _ _ _)) _);
    [simpl; tauto | unfold Qle; simpl; lia | lia | lia | reflexivity].
Defined.

(** *** Station deduplication and the GeoJSON output *)

Section DedupMore.

Variable A : Type.
Variable eqb : A -> A -> bool.

Lemma distinct_app_member (acc l : list A) (x0 : A) :
  pairwise_distinct eqb (acc ++ x0 :: l) -> is_member eqb x0 acc = false.
Proof.
  unfold is_member. induction acc as [|a acc IH]; simpl; [reflexivity|].
  intros [Ha Hd]. rewrite existsb_app in Ha. simpl in Ha.
  apply Bool.orb_false_iff in Ha. destruct Ha as [_ Ha].
  apply Bool.orb_false_iff in Ha. destruct Ha as [Ha _].
  rewrite Ha, (IH Hd). reflexivity.
Qed.

(** The loop leaves a list without equal elements as it is. *)
Lemma dedup_fold_fixed (l acc : list A) :
  pairwise_distinct eqb (acc ++ l) ->
  fold_left (ClimateStats.dedup_step eqb) l acc = acc ++ l.
Proof.
  revert acc. induction l as [|x0 l IH]; intros acc H; simpl.
  - rewrite app_nil_r. reflexivity.
  - unfold ClimateStats.dedup_step at 2. fold (is_member eqb x0 acc).
    rewrite (distinct_app_member acc l x0 H).
    rewrite IH; rewrite <- app_assoc; [reflexivity | exact H].
Qed.

Lemma dedup_fold_length (l acc : list A) :
  (List.length acc
   <= List.length (fold_left (ClimateStats.dedup_step eqb) l acc)
   <= List.length acc + List.length l)%nat.
Proof.
  revert acc. induction l as [|x0 l IH]; intros acc; simpl; [lia|].
  specialize (IH (ClimateStats.dedup_step eqb acc x0)).
  unfold ClimateStats.dedup_step in *.
  destruct (existsb (fun seen => eqb seen x0) acc).
  - lia.
  - rewrite length_app in IH. simpl in IH. lia.
Qed.

(** The loop only keeps elements it was given. *)
Lemma dedup_fold_In (l acc : list A) (x : A) :
  In x (fold_left (ClimateStats.dedup_step eqb) l acc) -> In x acc \/ In x l.
Proof.
  revert acc. induction l as [|x0 l IH]; intros acc H; simpl in *; [tauto|].
  apply IH in H. unfold ClimateStats.dedup_step in H.
  destruct (existsb (fun seen => eqb seen x0) acc).
  - tauto.
  - destruct H as [H | H]; [|tauto].
    apply in_app_or in H. simpl in H. tauto.
Qed.

End DedupMore.

Lemma coords_eqb_refl (c : list Q) : ClimateStats.coords_eqb c c = true.
Proof.
  apply coords_eqb_Forall2. induction c; constructor; [reflexivity | assumption].
Qed.

Lemma station_eqb_refl (t : ClimateStats.station_info) :
  ClimateStats.station_eqb t t = true.
Proof.
  destruct t as [[n i] c]. unfold ClimateStats.station_eqb.
  rewrite String.eqb_refl, Z.eqb_refl, coords_eqb_refl. reflexivity.
Qed.

(** X14: deduplicating twice is deduplicating once, and a list that has no
    two equal tuples is returned as it is; the result is never longer than
    the input and is empty only for an empty input. *)
Theorem X14_dedup_idempotent (tuples : list ClimateStats.station_info) :
  ClimateStats.dedup ClimateStats.station_eqb
    (ClimateStats.dedup ClimateStats.station_eqb tuples)
  = ClimateStats.dedup ClimateStats.station_eqb tuples
  /\ (pairwise_distinct ClimateStats.station_eqb tuples ->
      ClimateStats.dedup ClimateStats.station_eqb tuples = tuples)
  /\ (List.length (ClimateStats.dedup ClimateStats.station_eqb tuples)
      <= List.length tuples)%nat
  /\ (ClimateStats.dedup ClimateStats.station_eqb tuples = [] <-> tuples = []).
Proof.
  assert (F : forall l, pairwise_distinct ClimateStats.station_eqb l ->
                ClimateStats.dedup ClimateStats.station_eqb l = l).
  { intros l H. unfold ClimateStats.dedup.
    rewrite dedup_fold_fixed; [reflexivity | exact H]. }
  split; [|split; [exact (F tuples)|split]].
  - apply F. unfold ClimateStats.dedup. apply dedup_fold_distinct. exact I.
  - pose proof (dedup_fold_length _ ClimateStats.station_eqb tuples []) as H.
    unfold ClimateStats.dedup. simpl in H. lia.
  - split; [|intros ->; reflexivity].
    destruct tuples as [|t tuples]; [reflexivity|]. intros H. exfalso.
    unfold ClimateStats.dedup in H. simpl in H.
    pose proof (dedup_fold_length _ ClimateStats.station_eqb tuples
                  (ClimateStats.dedup_step ClimateStats.station_eqb [] t)) as L.
    rewrite H in L. simpl in L. lia.
Qed.

(** X15: the GeoJSON built from the deduplicated stations of the fetched
    records carries the info and the statistics unchanged and one feature per
    kept station: every record has a feature with its name, id and
    coordinates; every feature comes from a record; there are at most as
    many features as records, and none only when there is no record.
    Nothing is printed and nothing is raised. *)
Theorem X15_geojson_features (es_hits : list ClimateStats.hit)
    (stats : ClimateStats.statistics) (info : ClimateStats.output_info) :
  exists g : ClimateStats.geojson,
    ClimateStats.create_geojson_with_stats
      (ClimateStats.unique_stations_of es_hits) stats info = ([], Return g)
    /\ ClimateStats.gj_info g = info
    /\ ClimateStats.gj_global_stats g = stats
    /\ (List.length (ClimateStats.gj_features g) <= List.length es_hits)%nat
    /\ (ClimateStats.gj_features g = [] <-> es_hits = [])
    /\ (forall h, In h es_hits ->
          exists f, In f (ClimateStats.gj_features g)
            /\ ClimateStats.ft_name f = ClimateStats.STATION_NAME h
            /\ ClimateStats.ft_station_id f = ClimateStats.STN_ID h
            /\ Forall2 Qeq (ClimateStats.ft_coordinates f)
                 (ClimateStats.coordinates h))
    /\ (forall f, In f (ClimateStats.gj_features g) ->
          exists h, In h es_hits
            /\ ClimateStats.ft_name f = ClimateStats.STATION_NAME h
            /\ ClimateStats.ft_station_id f = ClimateStats.STN_ID h
            /\ ClimateStats.ft_coordinates f = ClimateStats.coordinates h).
Proof.
  eexists. split; [reflexivity|].
  cbn [ClimateStats.gj_info ClimateStats.gj_global_stats
       ClimateStats.gj_features].
  unfold ClimateStats.unique_stations_of.
  pose proof (dedup_fold_length _ ClimateStats.station_eqb
                (map ClimateStats.station_of es_hits) []) as L.
  rewrite length_map in L. simpl in L.
  fold (ClimateStats.dedup ClimateStats.station_eqb
          (map ClimateStats.station_of es_hits)) in L.
  set (tuples := map ClimateStats.station_of es_hits) in *.
  destruct (dedup_spec _ _ station_eqb_trans tuples) as (_ & _ & M).
  split; [reflexivity|]. split; [reflexivity|].
  split; [rewrite length_map; lia|].
  split.
  { split.
    - intros H. apply (f_equal (@List.length _)) in H.
      rewrite length_map in H. simpl in H.
      destruct es_hits as [|h hs]; [reflexivity|]. exfalso.
      unfold tuples, ClimateStats.dedup in H. simpl in H.
      pose proof (dedup_fold_length _ ClimateStats.station_eqb
                    (map ClimateStats.station_of hs)
                    (ClimateStats.dedup_step ClimateStats.station_eqb []
                       (ClimateStats.station_of h))) as L'.
      simpl in L'. lia.
    - intros ->. reflexivity. }
  split.
  - intros h Hh.
    assert (E : existsb (fun seen => ClimateStats.station_eqb seen
                                       (ClimateStats.station_of h)) tuples
                = true).
    { apply existsb_exists. exists (ClimateStats.station_of h).
      split; [apply in_map, Hh | apply station_eqb_refl]. }
    rewrite <- M in E. apply existsb_exists in E.
    destruct E as ([[n i] c] & Hin & Heq).
    unfold ClimateStats.station_of in Heq.
    apply station_eqb_structural in Heq. destruct Heq as (-> & -> & Hc).
    exists {| ClimateStats.ft_name := ClimateStats.STATION_NAME h;
              ClimateStats.ft_station_id := ClimateStats.STN_ID h;
              ClimateStats.ft_coordinates := c |}.
    split; [|simpl; auto].
    apply in_map_iff.
    exists (ClimateStats.STATION_NAME h, ClimateStats.STN_ID h, c).
    split; [reflexivity | exact Hin].
  - intros f Hf. apply in_map_iff in Hf.
    destruct Hf as ([[n i] c] & <- & Hin).
    unfold ClimateStats.dedup in Hin. apply dedup_fold_In in Hin.
    destruct Hin as [[] | Hin]. unfold tuples in Hin.
    apply in_map_iff in Hin. destruct Hin as (h & E & Hh).
    exists h. unfold ClimateStats.station_of in E. inversion E. subst.
    simpl. auto.
Qed.

(** *** build_query *)

Lemma qbind_ret {A B} (a : A) (k : A -> Query.QM B) :
  Query.qbind (Query.qret a) k = k a.
Proof. unfold Query.qbind, Query.qret. destruct (k a); reflexivity. Qed.

Lemma qbind_print {B} (l : Query.qline) (k : unit -> Query.QM B) :
  Query.qbind (Query.qprint l) k = (l :: fst (k tt), snd (k tt)).
Proof. unfold Query.qbind, Query.qprint. destruct (k tt); reflexivity. Qed.

Lemma qbind_outcome {A B} (m : Query.QM A) (k : A -> Query.QM B) :
  snd (Query.qbind m k)
  = match snd m with
    | Query.QReturn a => snd (k a)
    | Query.QRaise e => Query.QRaise e
    end.
Proof.
  destruct m as [out [a | e]]; simpl; [|reflexivity].
  destruct (k a); reflexivity.
Qed.

Lemma qtry_outcome {A} (m : Query.QM A) : snd (Query.qtry m) = snd m.
Proof. destruct m as [out [a | e]]; reflexivity. Qed.

Lemma bbox_filter_given (bbox : Query.pyobj)
    (box : option Query.geo_bounding_box) :
  Query.box_given bbox box -> Query.bbox_filter bbox = Query.qret box.
Proof.
  unfold Query.box_given, Query.bbox_filter. destruct box as [b|].
  - intros (T & tl & br & Htl & Hbr & H1 & H2 & H3 & H4).
    rewrite T, Htl, Hbr.
    do 4 (rewrite qbind_ret; cbn [Query.subscript];
          rewrite ?H1, ?H2, ?H3, ?H4; rewrite qbind_ret).
    destruct b; reflexivity.
  - intros ->. reflexivity.
Qed.

Lemma guarded_terms_wanted (mapping : list (string * Query.pyobj))
    (values : Query.pyobj) (name : string) (must : list Query.term) :
  (forall v, Query.dict_get name mapping = Some v -> exists s, v = Query.OStr s) ->
  Query.guarded_terms values name mapping must
  = Query.qret (must ++ Query.wanted mapping (values, name)).
Proof.
  intros H.
  unfold Query.guarded_terms, Query.wanted, Query.has_key, Query.append_terms,
    Query.subscript. simpl fst. simpl snd.
  destruct (Query.truthy values); simpl; [|rewrite app_nil_r; reflexivity].
  destruct (Query.dict_get name mapping) as [v|] eqn:E;
    [|rewrite app_nil_r; reflexivity].
  destruct (H v eq_refl) as [s ->]. reflexivity.
Qed.

(** Every mapping of [data_mapping], and the empty one used for an index
    that is not in it, names its fields by strings. *)
Lemma mapping_of_string_names (index : string) :
  Query.string_names (Query.mapping_of index).
Proof.
  unfold Query.mapping_of, Query.data_mapping, Query.dict_get.
  repeat match goal with
         | |- context [String.eqb ?a index] => destruct (String.eqb a index)
         end;
    intros name v H E; simpl in H;
    repeat (destruct H as [<- | H];
            [simpl in E; first [discriminate E | injection E as <-; eexists; reflexivity]|]);
    destruct H.
Qed.

Lemma plain_terms_cases (mapping : list (string * Query.pyobj))
    (values : Query.pyobj) (name : string) (must : list Query.term) :
  Query.plain_terms values name mapping must
  = if Query.truthy values && negb (Query.has_key name mapping)
    then Query.qraise (Query.KeyError name)
    else Query.guarded_terms values name mapping must.
Proof.
  unfold Query.plain_terms, Query.guarded_terms, Query.has_key,
    Query.append_terms, Query.subscript.
  destruct (Query.truthy values); simpl; [|reflexivity].
  destruct (Query.dict_get name mapping); reflexivity.
Qed.

(** The closed form of build_query of climate_stats.py. *)
Lemma build_query_eval (mapping : list (string * Query.pyobj))
    (bbox : Query.pyobj) (box : option Query.geo_bounding_box)
    (stations_ids years months days hours : Query.pyobj) :
  Query.string_names mapping -> Query.box_given bbox box ->
  Query.build_query mapping bbox stations_ids years months days hours
  = ([Query.MappingLine mapping],
     Query.QReturn
       {| Query.must :=
            flat_map (Query.wanted mapping)
              (Query.filters stations_ids years months days hours);
          Query.filter := box |}).
Proof.
  intros HN HB.
  assert (N : forall name,
            In name ["STN_IDName"; "yearName"; "monthName"; "dayName";
                     "hourName"]%string ->
            forall v, Query.dict_get name mapping = Some v ->
                      exists s, v = Query.OStr s).
  { intros name Hin v. apply HN, Hin. }
  unfold Query.build_query.
  rewrite (bbox_filter_given bbox box HB), qbind_ret, qbind_print.
  do 5 (rewrite guarded_terms_wanted by (apply N; simpl; tauto);
        rewrite qbind_ret).
  unfold Query.filters. simpl flat_map.
  rewrite !app_nil_r, <- !app_assoc. reflexivity.
Qed.

(** X16: build_query of climate_stats.py never raises when the names of
    the mapping are strings and the bounding box is absent or has its four
    numbers: it prints the mapping and returns the query whose filter is the
    box and whose terms are, in the order station, year, month, day, hour,
    one term per filter that is given and named by the mapping; a filter the
    mapping has no name for is dropped without notice. *)
Theorem X16_build_query_returns (mapping : list (string * Query.pyobj))
    (bbox : Query.pyobj) (box : option Query.geo_bounding_box)
    (stations_ids years months days hours : Query.pyobj) :
  Query.string_names mapping -> Query.box_given bbox box ->
  exists q,
    Query.build_query mapping bbox stations_ids years months days hours
    = ([Query.MappingLine mapping], Query.QReturn q)
    /\ Query.filter q = box
    /\ Query.must q
       = flat_map (Query.wanted mapping)
           (Query.filters stations_ids years months days hours)
    /\ (List.length (Query.must q) <= 5)%nat
    /\ (forall t, In t (Query.must q) ->
          exists values name s,
            In (values, name)
               (Query.filters stations_ids years months days hours)
            /\ Query.truthy values = true
            /\ Query.dict_get name mapping = Some (Query.OStr s)
            /\ Query.term_field t = ("properties." ++ s)%string
            /\ Query.term_values t = values).
Proof.
  intros HN HB.
  eexists. split; [apply (build_query_eval _ _ _ _ _ _ _ _ HN HB)|].
  cbn [Query.filter Query.must].
  split; [reflexivity|].
  split; [reflexivity|].
  split.
  - unfold Query.wanted, Query.filters. simpl.
    rewrite !length_app.
    repeat match goal with
           | |- context [if ?b then _ else _] => destruct b
           | |- context [match ?o with Some _ => _ | None => _ end] => destruct o
           | |- context [match ?v with Query.OStr _ => _ | _ => _ end] => destruct v
           end; simpl; lia.
  - intros t Ht.
    pose proof Ht as G.
    apply in_flat_map in G. destruct G as ([values name] & Hin & Hw).
    unfold Query.wanted in Hw. simpl in Hw.
    destruct (Query.truthy values) eqn:T; [|destruct Hw].
    destruct (Query.dict_get name mapping) as [[| | s | |]|] eqn:E;
      simpl in Hw; try contradiction.
    destruct Hw as [<- | []].
    exists values, name, s. auto.
Qed.

Lemma X16_build_query_witness :
  exists q,
    Query.build_query (Query.mapping_of "climate_normals_data")
      (Query.ODict
         [("top_left"%string,
           Query.ODict [("lat"%string, Query.ONum 80);
                        ("lon"%string, Query.ONum (-141))]);
          ("bottom_right"%string,
           Query.ODict [("lat"%string, Query.ONum 25);
                        ("lon"%string, Query.ONum (-138))])])
      (Query.OList [Query.ONum 5680]) (Query.OList [Query.ONum 1980])
      (Query.OList [Query.ONum 11]) (Query.OList []) Query.ONone
    = ([Query.MappingLine (Query.mapping_of "climate_normals_data")],
       Query.QReturn q)
    /\ Query.must q
       = [ {| Query.term_field := "properties.STN_ID";
              Query.term_values := Query.OList [Query.ONum 5680] |};
           {| Query.term_field := "properties.MONTH";
              Query.term_values := Query.OList [Query.ONum 11] |} ].
Proof.
  destruct (X16_build_query_returns
              (Query.mapping_of "climate_normals_data")
              (Query.ODict
                 [("top_left"%string,
                   Query.ODict [("lat"%string, Query.ONum 80);
                                ("lon"%string, Query.ONum (-141))]);
                  ("bottom_right"%string,
                   Query.ODict [("lat"%string, Query.ONum 25);
                                ("lon"%string, Query.ONum (-138))])])
              (Some {| Query.top_left_lat := Query.ONum 80;
                       Query.top_left_lon := Query.ONum (-141);
                       Query.bottom_right_lat := Query.ONum 25;
                       Query.bottom_right_lon := Query.ONum (-138) |})
              (Query.OList [Query.ONum 5680]) (Query.OList [Query.ONum 1980])
              (Query.OList [Query.ONum 11]) (Query.OList []) Query.ONone)
    as (q & E & _ & M & _).
  - intros name v H. simpl in H.
    repeat (destruct H as [<- | H];
            [intros E; vm_compute in E;
             first [discriminate E | injection E as <-; eexists; reflexivity]|]).
    destruct H.
  - split; [reflexivity|]. do 2 eexists. repeat split.
  - exists q. split; [exact E | exact M].
Defined.

Lemma qbind_raise {A B} (e : Query.qexn) (k : A -> Query.QM B) :
  Query.qbind (Query.qraise e) k = Query.qraise e.
Proof. reflexivity. Qed.

(** X17: build_query of test.py reads the station, year and month names
    from the mapping without testing for them: when one of these filters is
    given and the mapping has no name for it (years with the mapping of
    climate_normals_data, anything with an index that is not in
    data_mapping), it prints the error and raises KeyError for the first such
    name, where build_query of climate_stats.py returns on the same
    arguments. *)
Theorem X17_test_py_build_query_key_error
    (mapping : list (string * Query.pyobj))
    (bbox : Query.pyobj) (box : option Query.geo_bounding_box)
    (station_ids years months days hours : Query.pyobj) (name : string) :
  Query.string_names mapping -> Query.box_given bbox box ->
  Query.first_unnamed mapping station_ids years months = Some name ->
  Query.test_build_query mapping bbox station_ids years months days hours
  = ([Query.ErrorLine (Query.KeyError name)], Query.QRaise (Query.KeyError name))
  /\ exists q,
       Query.build_query mapping bbox station_ids years months days hours
       = ([Query.MappingLine mapping], Query.QReturn q).
Proof.
  intros HN HB HF.
  assert (N : forall n,
            In n ["STN_IDName"; "yearName"; "monthName"; "dayName";
                  "hourName"]%string ->
            forall v, Query.dict_get n mapping = Some v ->
                      exists s, v = Query.OStr s).
  { intros n Hin v. apply HN, Hin. }
  split.
  - unfold Query.test_build_query, Query.first_unnamed in *.
    rewrite (bbox_filter_given bbox box HB), qbind_ret.
    rewrite plain_terms_cases.
    destruct (Query.truthy station_ids
              && negb (Query.has_key "STN_IDName" mapping)).
    { injection HF as <-. reflexivity. }
    rewrite guarded_terms_wanted by (apply N; simpl; tauto).
    rewrite qbind_ret, plain_terms_cases.
    destruct (Query.truthy years && negb (Query.has_key "yearName" mapping)).
    { injection HF as <-. reflexivity. }
    rewrite guarded_terms_wanted by (apply N; simpl; tauto).
    rewrite qbind_ret, plain_terms_cases.
    destruct (Query.truthy months && negb (Query.has_key "monthName" mapping)).
    { injection HF as <-. reflexivity. }
    discriminate HF.
  - eexists. apply (build_query_eval _ _ _ _ _ _ _ _ HN HB).
Qed.

(** Years given for climate_normals_data, whose mapping has no yearName. *)
Lemma X17_test_py_key_error_witness :
  Query.test_build_query (Query.mapping_of "climate_normals_data")
    Query.ONone (Query.OList [Query.ONum 5680]) (Query.OList [Query.ONum 1980])
    (Query.OList [Query.ONum 11]) (Query.OList []) (Query.OList [])
  = ([Query.ErrorLine (Query.KeyError "yearName")],
     Query.QRaise (Query.KeyError "yearName")).
Proof.
  refine (proj1 (X17_test_py_build_query_key_error
                   (Query.mapping_of "climate_normals_data")
                   Query.ONone None (Query.OList [Query.ONum 5680])
                   (Query.OList [Query.ONum 1980])
                   (Query.OList [Query.ONum 11]) (Query.OList [])
                   (Query.OList []) "yearName" _ _ _)).
  - apply mapping_of_string_names.
  - reflexivity.
  - reflexivity.
Defined.

(** X18: when each of the station, year and month filters that is given
    has a name in the mapping, build_query of test.py and build_query of
    climate_stats.py have the same outcome, the same query or the same
    exception, whatever the bounding box; only the printed mapping line
    differs. *)
Theorem X18_build_query_versions_agree (mapping : list (string * Query.pyobj))
    (bbox station_ids years months days hours : Query.pyobj) :
  Query.first_unnamed mapping station_ids years months = None ->
  snd (Query.test_build_query mapping bbox station_ids years months days hours)
  = snd (Query.build_query mapping bbox station_ids years months days hours).
Proof.
  intros HF. unfold Query.first_unnamed in HF.
  destruct (Query.truthy station_ids
            && negb (Query.has_key "STN_IDName" mapping)) eqn:C1;
    [discriminate|].
  destruct (Query.truthy years && negb (Query.has_key "yearName" mapping))
    eqn:C2; [discriminate|].
  destruct (Query.truthy months && negb (Query.has_key "monthName" mapping))
    eqn:C3; [discriminate|].
  clear HF.
  unfold Query.test_build_query, Query.build_query. rewrite !qtry_outcome.
  rewrite !qbind_outcome.
  destruct (snd (Query.bbox_filter bbox)) as [f|e]; [|reflexivity].
  rewrite !qbind_outcome. rewrite plain_terms_cases, C1.
  destruct (snd (Query.guarded_terms station_ids "STN_IDName" mapping []))
    as [m1|e]; [|reflexivity].
  rewrite !qbind_outcome, plain_terms_cases, C2.
  destruct (snd (Query.guarded_terms years "yearName" mapping m1))
    as [m2|e]; [|reflexivity].
  rewrite !qbind_outcome, plain_terms_cases, C3.
  destruct (snd (Query.guarded_terms months "monthName" mapping m2))
    as [m3|e]; [|reflexivity].
  reflexivity.
Qed.

Lemma X18_build_query_agree_witness :
  snd (Query.test_build_query (Query.mapping_of "climate_public_daily_data")
         Query.ONone (Query.OList [Query.ONum 5680; Query.ONum 5682])
         (Query.OList [Query.ONum 1980]) (Query.OList [Query.ONum 11])
         (Query.OList []) (Query.OList []))
  = snd (Query.build_query (Query.mapping_of "climate_public_daily_data")
           Query.ONone (Query.OList [Query.ONum 5680; Query.ONum 5682])
           (Query.OList [Query.ONum 1980]) (Query.OList [Query.ONum 11])
           (Query.OList []) (Query.OList [])).
Proof.
  apply X18_build_query_versions_agree. reflexivity.
Defined.

Lemma mapping_of_station_name (index : string) :
  Query.has_key index Query.data_mapping = true ->
  Query.dict_get "STN_IDName" (Query.mapping_of index)
  = Some (Query.OStr "STN_ID").
Proof.
  unfold Query.has_key, Query.mapping_of, Query.data_mapping, Query.dict_get.
  repeat match goal with
         | |- context [String.eqb ?a index] => destruct (String.eqb a index)
         end; intros H; first [reflexivity | discriminate H].
Qed.

(** X19: climate_stats hands its arguments to build_query by position with
    the station ids and the bounding box exchanged.  For station ids that
    are not a dictionary: if they are given (a non-empty list or text) the
    query builder subscripts them as a box and raises TypeError; if they are
    not given, the query is built without any bounding-box filter, and a
    bounding box that is given is sent as the values of the station term
    properties.STN_ID when the index is one of data_mapping. *)
Theorem X19_climate_stats_exchanges_ids_and_box (index : string)
    (bbox stations_ids years months days hours : Query.pyobj) :
  (forall entries, stations_ids <> Query.ODict entries) ->
  (Query.truthy stations_ids = true ->
   Query.climate_stats_query index bbox stations_ids years months days hours
   = ([Query.ErrorLine Query.SubscriptTypeError],
      Query.QRaise Query.SubscriptTypeError))
  /\ (Query.truthy stations_ids = false ->
      exists q,
        Query.climate_stats_query index bbox stations_ids years months days
          hours
        = ([Query.MappingLine (Query.mapping_of index)], Query.QReturn q)
        /\ Query.filter q = None
        /\ (Query.truthy bbox = true ->
            Query.has_key index Query.data_mapping = true ->
            exists rest,
              Query.must q
              = {| Query.term_field := "properties.STN_ID";
                   Query.term_values := bbox |} :: rest)).
Proof.
  intros ND. unfold Query.climate_stats_query. split.
  - intros T. unfold Query.build_query, Query.bbox_filter. rewrite T.
    destruct stations_ids as [|q|s|items|entries];
      first [reflexivity | exfalso; exact (ND entries eq_refl)].
  - intros T.
    eexists. split.
    { apply (build_query_eval _ stations_ids None);
        [apply mapping_of_string_names | exact T]. }
    cbn [Query.filter Query.must]. split; [reflexivity|].
    intros TB K. unfold Query.filters. simpl flat_map.
    unfold Query.wanted at 1. simpl fst. simpl snd.
    rewrite TB, (mapping_of_station_name index K).
    eexists. reflexivity.
Qed.

Lemma X19_exchange_witness :
  Query.climate_stats_query "climate_public_daily_data" Query.ONone
    (Query.OList [Query.ONum 5680; Query.ONum 5682])
    (Query.OList [Query.ONum 1980]) (Query.OList []) (Query.OList [])
    (Query.OList [])
  = ([Query.ErrorLine Query.SubscriptTypeError],
     Query.QRaise Query.SubscriptTypeError).
Proof.
  refine (proj1 (X19_climate_stats_exchanges_ids_and_box
                   "climate_public_daily_data" Query.ONone
                   (Query.OList [Query.ONum 5680; Query.ONum 5682])
                   (Query.OList [Query.ONum 1980]) (Query.OList [])
                   (Query.OList []) (Query.OList []) _) _).
  - intros entries H. discriminate H.
  - reflexivity.
Defined.

(** *** process_station_hits *)

Lemma station_round_message (es_hits : list ClimateStats.hit)
    (query_info : list pystr) (station_id : Z) :
  StationHits.station_round es_hits query_info station_id
  = ([StationHits.station_message es_hits station_id],
     Return (query_info ++ [StationHits.station_message es_hits station_id])).
Proof.
  unfold StationHits.station_round, StationHits.station_message.
  induction es_hits as [|h hs IH]; simpl; [reflexivity|].
  destruct (ClimateStats.STN_ID h =? station_id); simpl; [reflexivity|].
  exact IH.
Qed.

Lemma process_station_hits_fold (es_hits : list ClimateStats.hit)
    (station_ids : list Z) (out acc : list pystr) :
  fold_left
    (fun (state : M (list pystr)) station_id =>
       bind state (fun query_info =>
                     StationHits.station_round es_hits query_info station_id))
    station_ids (out, Return acc)
  = (out ++ map (StationHits.station_message es_hits) station_ids,
     Return (acc ++ map (StationHits.station_message es_hits) station_ids)).
Proof.
  revert out acc. induction station_ids as [|id ids IH]; intros out acc; simpl.
  - rewrite !app_nil_r. reflexivity.
  - rewrite station_round_message, IH, <- !app_assoc. reflexivity.
Qed.

(** X20: process_station_hits returns one message per station id, in the
    order of the ids and with repeated ids repeated, and has printed exactly
    the messages it returns; the message for an id says "has hits!" when some
    fetched record has that station id and "has no hits." when none has. *)
Theorem X20_process_station_hits (station_ids : list Z)
    (es_hits : list ClimateStats.hit) :
  exists query_info : list pystr,
    StationHits.process_station_hits station_ids es_hits
    = (query_info, Return query_info)
    /\ List.length query_info = List.length station_ids
    /\ (forall i id, nth_error station_ids i = Some id ->
          (nth_error query_info i = Some (StationHits.has_hits id)
           /\ exists hit, In hit es_hits /\ ClimateStats.STN_ID hit = id)
          \/ (nth_error query_info i = Some (StationHits.has_no_hits id)
              /\ forall hit, In hit es_hits -> ClimateStats.STN_ID hit <> id)).
Proof.
  exists (map (StationHits.station_message es_hits) station_ids).
  split.
  - unfold StationHits.process_station_hits, ret.
    rewrite process_station_hits_fold. reflexivity.
  - split; [apply length_map|].
    intros i id H. rewrite nth_error_map, H. simpl.
    unfold StationHits.station_message.
    destruct (existsb (fun hit => ClimateStats.STN_ID hit =? id) es_hits) eqn:E.
    + left. split; [reflexivity|].
      apply existsb_exists in E. destruct E as (hit & Hin & Heq).
      exists hit. split; [exact Hin | apply Z.eqb_eq, Heq].
    + right. split; [reflexivity|].
      intros hit Hin Heq.
      assert (T : existsb (fun hit => ClimateStats.STN_ID hit =? id) es_hits
                  = true).
      { apply existsb_exists. exists hit. split; [exact Hin|].
        apply Z.eqb_eq, Heq. }
      rewrite T in E. discriminate E.
Qed.
